(** * MyRover GTA carrier app (index.js): a shallow embedding

    The repository holds two near-duplicate variants of one Express
    application.  Variant A (index.js lines 1-238) keeps an in-memory
    token store and registers metadata after the OAuth callback;
    variant B (lines 239-449) keeps no store and registers nothing.

    A request is taken as Express hands it to a handler: the query string
    parsed into [req.query], the JSON body parsed into [req.body] (a
    request whose body the parser refuses never reaches a handler).
    JavaScript strings are kept as their UTF-8 bytes ([string]); every
    string a handler receives comes out of the query or JSON parser and is
    well-formed.  The state a handler can change is the [storeTokens] map
    and the console; the network ([fetch]) is a function from the request
    sent to what came back. *)

From Stdlib Require Import ZArith String Ascii List Lia.
From stdpp Require Import base gmap strings.
Import ListNotations.
Open Scope string_scope.

Set Warnings "-register-all".

(** ** JavaScript strings *)

Module JsString.

(** [s.slice(n)] for [0 <= n]. *)
Fixpoint slice (n : nat) (s : string) : string :=
  match n, s with
  | O, _ => s
  | S n', String _ s' => slice n' s'
  | S _, EmptyString => EmptyString
  end.

(** [s.startsWith(p)]. *)
Fixpoint startsWith (p s : string) : bool :=
  match p, s with
  | EmptyString, _ => true
  | String a p', String b s' => Ascii.eqb a b && startsWith p' s'
  | String _ _, EmptyString => false
  end.

(** [s.includes(p)]. *)
Fixpoint includes (p s : string) : bool :=
  startsWith p s
  || match s with
     | EmptyString => false
     | String _ s' => includes p s'
     end.

(** [s.replace(pat, rep)] with a string pattern: the first occurrence of
    [pat], searched from the left, is replaced; later ones stay.  ([rep]
    is taken literally: the source only passes the empty string, which
    has no [$] patterns to expand.) *)
Fixpoint replace (pat rep s : string) : string :=
  if startsWith pat s then rep +:+ slice (String.length pat) s
  else match s with
       | EmptyString => EmptyString
       | String c s' => String c (replace pat rep s')
       end.

Definition byte (n : nat) : ascii := ascii_of_nat n.

Definition code (n : nat) (c : ascii) : bool := Ascii.eqb c (byte n).

Definition between (lo hi : nat) (c : ascii) : bool :=
  Nat.leb lo (nat_of_ascii c) && Nat.leb (nat_of_ascii c) hi.

(** White space and line terminators of ECMAScript, by the length of
    their UTF-8 encoding: TAB LF VT FF CR SP; NBSP (C2 A0); U+1680,
    U+2000..U+200A, U+2028, U+2029, U+202F, U+205F, U+3000, U+FEFF. *)
Definition ws1 (a : ascii) : bool :=
  code 9 a || code 10 a || code 11 a || code 12 a || code 13 a || code 32 a.

Definition ws2 (a b : ascii) : bool := code 194 a && code 160 b.

Definition ws3 (a b c : ascii) : bool :=
  (code 225 a && code 154 b && code 128 c)
  || (code 226 a && code 128 b
      && (between 128 138 c
          || code 168 c || code 169 c || code 175 c))
  || (code 226 a && code 129 b && code 159 c)
  || (code 227 a && code 128 b && code 128 c)
  || (code 239 a && code 187 b && code 191 c).

(** Drops the white space a string starts with; [w2] and [w3] recognise
    the two- and three-byte characters in the order the bytes are met. *)
Fixpoint strip (w2 : ascii -> ascii -> bool)
    (w3 : ascii -> ascii -> ascii -> bool) (s : string) : string :=
  match s with
  | EmptyString => s
  | String a r1 =>
      if ws1 a then strip w2 w3 r1
      else match r1 with
           | EmptyString => s
           | String b r2 =>
               if w2 a b then strip w2 w3 r2
               else match r2 with
                    | EmptyString => s
                    | String c r3 =>
                        if w3 a b c then strip w2 w3 r3 else s
                    end
           end
  end.

Fixpoint rev_onto (s acc : string) : string :=
  match s with
  | EmptyString => acc
  | String c s' => rev_onto s' (String c acc)
  end.

Definition reverse (s : string) : string := rev_onto s EmptyString.

Definition trimStart (s : string) : string := strip ws2 ws3 s.

Definition trimEnd (s : string) : string :=
  reverse (strip (fun a b => ws2 b a) (fun a b c => ws3 c b a) (reverse s)).

(** [s.trim()]. *)
Definition trim (s : string) : string := trimEnd (trimStart s).

Definition hex (n : nat) : ascii :=
  match String.get n "0123456789ABCDEF" with
  | Some c => c
  | None => "0"%char
  end.

(** A-Z a-z 0-9 - _ . ! ~ * ' ( ) are left as they are. *)
Definition unescaped (c : ascii) : bool :=
  between 65 90 c || between 97 122 c || between 48 57 c
  || includes (String c EmptyString) "-_.!~*'()".

Definition escape (c : ascii) : string :=
  let n := nat_of_ascii c in
  String "%" (String (hex (n / 16)) (String (hex (n mod 16)) EmptyString)).

(** [encodeURIComponent(s)]: every byte of the UTF-8 encoding that is not
    left as it is becomes [%XX]. *)
Fixpoint encodeURIComponent (s : string) : string :=
  match s with
  | EmptyString => EmptyString
  | String c s' =>
      (if unescaped c then String c EmptyString else escape c)
      +:+ encodeURIComponent s'
  end.

(** [a.join(",")] on an array of strings. *)
Fixpoint join (l : list string) : string :=
  match l with
  | [] => EmptyString
  | [s] => s
  | s :: l' => s +:+ "," +:+ join l'
  end.

End JsString.

(** ** JavaScript values *)

(** A JSON value.  A number is kept as the decimal it is written as,
    [JNum m e] standing for [m * 10^e]; the handlers never compute with
    one.  An object holds its own properties in order, each key once. *)
Inductive json : Type :=
| JNull
| JBool (b : bool)
| JNum (m e : Z)
| JStr (s : string)
| JArr (items : list json)
| JObj (fields : list (string * json)).

(** A value that may be [undefined] ([None]). *)
Abbreviation jsval := (option json).

(** What the query parser hands out for one parameter: a string, or an
    array or object when the key is repeated or bracketed. *)
Inductive qval : Type :=
| QStr (s : string)
| QArr (items : list qval)
| QObj (fields : list (string * qval)).

Fixpoint json_of_qval (q : qval) : json :=
  match q with
  | QStr s => JStr s
  | QArr items => JArr (map json_of_qval items)
  | QObj fields => JObj (map (fun kv => let '(k, v) := kv in (k, json_of_qval v)) fields)
  end.

Definition of_query (q : option qval) : jsval := json_of_qval <$> q.

(** [ToString] on a query value, as a template literal and
    [encodeURIComponent] apply it.  (An object of the query is taken to
    have no member named [toString].) *)
Fixpoint qstring (q : qval) : string :=
  match q with
  | QStr s => s
  | QArr items => JsString.join (map qstring items)
  | QObj _ => "[object Object]"
  end.

Definition toString (q : option qval) : string :=
  match q with
  | Some v => qstring v
  | None => "undefined"
  end.

(** [process.env.X]: a string, or [undefined] when the variable is unset. *)
Definition env_string (v : option string) : string := default "undefined" v.

Definition env_truthy (v : option string) : bool :=
  match v with
  | Some (String _ _) => true
  | _ => false
  end.

(** Whether the number written [m * 10^e] is a double other than 0.  The
    JSON parser rounds what is written to the nearest double, and a
    number of size at most [2^-1075] rounds to 0. *)
Definition nonzero_double (m e : Z) : bool :=
  if (0 <=? e)%Z then negb (m =? 0)%Z
  else (10 ^ (- e) <? Z.abs m * 2 ^ 1075)%Z.

(** Truthiness, as [!v], [v || w] and [if (v)] test it. *)
Definition truthy (v : jsval) : bool :=
  match v with
  | None | Some JNull => false
  | Some (JBool b) => b
  | Some (JNum m e) => nonzero_double m e
  | Some (JStr s) => negb (String.eqb s EmptyString)
  | Some (JArr _) | Some (JObj _) => true
  end.

(** [v || w]. *)
Definition or_else (v w : jsval) : jsval := if truthy v then v else w.

Fixpoint assoc {A} (k : string) (l : list (string * A)) : option A :=
  match l with
  | [] => None
  | (k', v) :: l' => if String.eqb k k' then Some v else assoc k l'
  end.

(** [v.k] on a value that is neither [null] nor [undefined]; none of the
    names read in index.js ([error], [access_token], [context],
    [store_hash]) is a property of a string, number, boolean or array. *)
Definition prop (v : json) (k : string) : jsval :=
  match v with
  | JObj fields => assoc k fields
  | _ => None
  end.

(** [v?.k]. *)
Definition prop_opt (v : jsval) (k : string) : jsval :=
  match v with
  | None | Some JNull => None
  | Some j => prop j k
  end.

(** The value [JSON.stringify] serialises for an object literal: members
    that are [undefined] are left out. *)
Definition object_literal (fields : list (string * jsval)) : json :=
  JObj (omap (fun kv => let '(k, v) := kv in (fun j => (k, j)) <$> v) fields).

(** Whether [ToString] completes on a value, as a template literal and
    [new Error] apply it.  An object that has a member named [toString]
    of its own has no callable one (no JSON value is callable), and
    neither its [valueOf] nor the inherited one gives a primitive: the
    conversion throws.  An array is joined, so it converts when its
    elements do. *)
Fixpoint printable (v : json) : bool :=
  match v with
  | JObj fields =>
      match assoc "toString" fields with
      | Some _ => false
      | None => true
      end
  | JArr items => forallb printable items
  | _ => true
  end.

Definition printable_val (v : jsval) : bool :=
  match v with
  | Some j => printable j
  | None => true
  end.

(** ** Errors, console, HTTP *)

Inductive js_error : Type :=
| Error (message : jsval)          (* new Error(message) *)
| TypeError                        (* a call of what is no function, a read on null *)
| FetchError (reason : string)     (* fetch rejected *)
| SyntaxError.                     (* res.json() on a body that is not JSON *)

(** One argument of a console call. *)
Inductive logged : Type :=
| LVal (v : jsval)
| LObj (fields : list (string * jsval))   (* an object literal *)
| LJsonText (v : jsval)                   (* JSON.stringify(v, null, 2) *)
| LTemplate (parts : list jsval)          (* a template literal *)
| LMessage (e : js_error)                 (* err.message *)
| LErr (e : js_error).

Definition LStr (s : string) : logged := LVal (Some (JStr s)).

Inductive level : Type := log | warn | error.

Definition log_event : Type := level * list logged.

(** What a handler answers.  [Redirect 302 u] is [res.redirect(u)]: [u] is
    the URL the handler hands over. *)
Inductive response : Type :=
| Send (status : Z) (body : string)        (* res.status(n).send(text) *)
| SendJson (status : Z) (body : json)      (* res.status(n).json(value) *)
| Redirect (status : Z) (location : string).

Record request : Type := {
  req_method : string;
  req_headers : list (string * string);
  req_query : gmap string qval;
  req_body : jsval      (* undefined when the JSON parser set none *)
}.

(** What is passed to [fetch]; [init_body] is the value whose JSON text is
    the body. *)
Record fetch_init : Type := {
  url : string;
  init_method : string;
  init_headers : list (string * jsval);
  init_body : json
}.

Record fetch_response : Type := {
  res_status : Z;
  res_json : option json      (* None: the body does not parse *)
}.

Definition res_ok (r : fetch_response) : bool :=
  (200 <=? res_status r)%Z && (res_status r <? 300)%Z.

Inductive fetch_outcome : Type :=
| Resolved (r : fetch_response)
| Rejected (reason : string).

(** ** Handlers as state transformers that may throw

    A handler that returns has sent its answer.  One that throws has
    sent nothing: Express then answers 500 in its place. *)

Record state : Type := {
  storeTokens : gmap string jsval;
  console : list log_event
}.

Inductive outcome (A : Type) : Type :=
| Return (a : A)
| Throw (e : js_error).
Arguments Return {A} a.
Arguments Throw {A} e.

Definition M (A : Type) : Type := state -> outcome A * state.

Definition ret {A} (a : A) : M A := fun st => (Return a, st).

Definition bind {A B} (m : M A) (k : A -> M B) : M B :=
  fun st =>
    match m st with
    | (Return a, st') => k a st'
    | (Throw e, st') => (Throw e, st')
    end.

Definition throw {A} (e : js_error) : M A := fun st => (Throw e, st).

(** [try { m } catch (err) { h err }]: what [m] did to the state before
    it threw stays done. *)
Definition try_catch {A} (m : M A) (h : js_error -> M A) : M A :=
  fun st =>
    match m st with
    | (Return a, st') => (Return a, st')
    | (Throw e, st') => h e st'
    end.

Notation "x <- m ;; k" := (bind m (fun x => k))
  (at level 100, m at next level, right associativity).
Notation "m ;; k" := (bind m (fun _ => k))
  (at level 100, right associativity).

Definition console_ (l : level) (args : list logged) : M unit :=
  fun st =>
    (Return tt,
     {| storeTokens := storeTokens st; console := console st ++ [(l, args)] |}).

(** A template literal, as an argument of a console call: every part is
    converted to a string, which throws when a part cannot be. *)
Definition template (parts : list jsval) : M logged :=
  if forallb printable_val parts then ret (LTemplate parts)
  else throw TypeError.

(** [new Error(message)]: the message is converted to a string. *)
Definition new_Error (message : jsval) : M js_error :=
  if printable_val message then ret (Error message) else throw TypeError.

(** [storeTokens.set(k, v)]. *)
Definition storeTokens_set (k : string) (v : jsval) : M unit :=
  fun st =>
    (Return tt,
     {| storeTokens := <[k := v]> (storeTokens st); console := console st |}).

(** [storeTokens.delete(k)].  The keys of the map are strings (the only
    [set] is given the result of [replace]) and a Map compares keys
    without conversion, so a key that is no string removes nothing. *)
Definition storeTokens_delete (k : jsval) : M unit :=
  fun st =>
    (Return tt,
     {| storeTokens := match k with
                       | Some (JStr s) => delete s (storeTokens st)
                       | _ => storeTokens st
                       end;
        console := console st |}).

(** [v.k] where [v] may be anything: a read on [null] or [undefined]
    throws. *)
Definition read (v : jsval) (k : string) : M jsval :=
  match v with
  | None | Some JNull => throw TypeError
  | Some j => ret (prop j k)
  end.

(** [v.replace(pat, rep)]: only a string has the method. *)
Definition call_replace (v : jsval) (pat rep : string) : M string :=
  match v with
  | Some (JStr s) => ret (JsString.replace pat rep s)
  | _ => throw TypeError
  end.

(** [await res.json()]. *)
Definition await_json (r : fetch_response) : M json :=
  match res_json r with
  | Some j => ret j
  | None => throw SyntaxError
  end.

Definition dq : string := String (ascii_of_nat 34) EmptyString.

Definition nl : string := String (ascii_of_nat 10) EmptyString.

(** [await fetch(...)]: a rejected fetch throws. *)
Definition await (o : fetch_outcome) : M fetch_response :=
  match o with
  | Resolved r => ret r
  | Rejected reason => throw (FetchError reason)
  end.

Definition str (s : string) : jsval := Some (JStr s).

Definition carrier_quote (code display_name : string) (cost : json) : json :=
  JObj [("carrier_quote",
         JObj [("code", JStr code); ("display_name", JStr display_name);
               ("cost", cost)])].

(** ** Variant A (index.js, lines 1-238) *)

Module A.
Section Server.

(** [process.env.BC_CLIENT_ID], [BC_CLIENT_SECRET] and [APP_URL]. *)
Variables CLIENT_ID CLIENT_SECRET APP_URL : option string.

(** The network: what a [fetch] with the given arguments comes back with. *)
Variable fetch : fetch_init -> fetch_outcome.

(** [redirectUri] of lines 39 and 61. *)
Definition redirectUri : string := env_string APP_URL +:+ "/api/auth/callback".

(** [authUrl] of lines 41-45. *)
Definition authUrl (context scope : option qval) : string :=
  "https://login.bigcommerce.com/oauth2/authorize?client_id="
  +:+ env_string CLIENT_ID
  +:+ "&scope=" +:+ JsString.encodeURIComponent (toString scope)
  +:+ "&redirect_uri=" +:+ JsString.encodeURIComponent redirectUri
  +:+ "&response_type=code&context="
  +:+ JsString.encodeURIComponent (toString context).

Definition not_configured : string :=
  "Server not configured correctly (CLIENT_ID / APP_URL missing).".

(** GET /api/install (lines 25-49). *)
Definition install (req : request) : M response :=
  let context := req_query req !! "context" in
  let scope := req_query req !! "scope" in
  if negb (env_truthy CLIENT_ID) || negb (env_truthy APP_URL) then
    console_ error [LStr "Missing CLIENT_ID or APP_URL in env vars"];;
    ret (Send 500 not_configured)
  else if negb (truthy (of_query context)) || negb (truthy (of_query scope)) then
    ret (Send 400 "Missing context or scope from BigCommerce.")
  else
    let authUrl := authUrl context scope in
    console_ log [LStr "Redirecting to BigCommerce OAuth:"; LStr authUrl];;
    ret (Redirect 302 authUrl).

Definition metadata_payload : json :=
  JObj [("data",
         JArr [JObj [("key", JStr "shipping_connection");
                     ("value", JStr "/v1/shipping/connection")];
               JObj [("key", JStr "shipping_rates");
                     ("value", JStr "/v1/shipping/rates")]])].

Definition metadata_url (storeHash : string) : string :=
  "https://api.bigcommerce.com/stores/" +:+ storeHash +:+ "/v3/app/metadata".

(** The second argument of the [fetch] of lines 170-178. *)
Definition metadata_request (storeHash : string) (accessToken : jsval)
    : fetch_init :=
  {| url := metadata_url storeHash;
     init_method := "POST";
     init_headers := [("X-Auth-Token", accessToken);
                      ("Content-Type", str "application/json");
                      ("Accept", str "application/json")];
     init_body := metadata_payload |}.

(** [registerMetadata] (lines 159-193). *)
Definition registerMetadata (storeHash : string) (accessToken : jsval)
    : M unit :=
  let url := metadata_url storeHash in
  let payload := metadata_payload in
  console_ log [LStr "📨 Registering metadata at:"; LStr url;
                LVal (Some payload)];;
  res <- await (fetch (metadata_request storeHash accessToken));;
  data <- try_catch
            (await_json res)
            (fun e =>
               console_ warn [LStr "⚠️ Could not parse metadata response JSON"];;
               ret JNull);;
  if negb (res_ok res) then
    console_ error [LStr "❌ Metadata registration failed:";
                    LVal (Some (JNum (res_status res) 0)); LVal (Some data)];;
    ret tt
  else
    console_ log [LStr "✅ Metadata registered successfully:";
                  LVal (Some data)].

(** The second argument of the [fetch] of lines 63-75. *)
Definition token_request (req : request) : fetch_init :=
  let code := req_query req !! "code" in
  let context := req_query req !! "context" in
  let scope := req_query req !! "scope" in
  {| url := "https://login.bigcommerce.com/oauth2/token";
     init_method := "POST";
     init_headers := [("Content-Type", str "application/json")];
     init_body :=
       object_literal
         [("client_id", JStr <$> CLIENT_ID);
          ("client_secret", JStr <$> CLIENT_SECRET);
          ("redirect_uri", str redirectUri);
          ("grant_type", str "authorization_code");
          ("code", of_query code);
          ("scope", of_query scope);
          ("context", of_query context)] |}.

(** [storeHash] of line 60. *)
Definition storeHash (context : option qval) : M string :=
  call_replace (of_query context) "stores/" EmptyString.

Definition installed_page : string :=
  nl +:+
  "      <h2>✅ MyRover GTA Carrier installed successfully</h2>" +:+ nl +:+
  "      <p>You can close this window and return to your BigCommerce admin.</p>" +:+ nl +:+
  "    ".

Definition callback_failed : string :=
  "OAuth callback failed. Check server logs for more details.".

(** GET /api/auth/callback (lines 52-101). *)
Definition auth_callback (req : request) : M response :=
  try_catch
    (let code := req_query req !! "code" in
     let context := req_query req !! "context" in
     let scope := req_query req !! "scope" in
     if negb (truthy (of_query code)) || negb (truthy (of_query context)) then
       (e <- new_Error (str "Missing code or context in OAuth callback.");;
        throw e)
     else
       storeHash <- storeHash context;;
       tokenRes <- await (fetch (token_request req));;
       data <- await_json tokenRes;;
       if negb (res_ok tokenRes) then
         console_ error [LStr "OAuth token exchange failed:"; LVal (Some data)];;
         err <- read (Some data) "error";;
         e <- new_Error (or_else err (str "Token exchange failed"));;
         throw e
       else
         accessToken <- read (Some data) "access_token";;
         storeTokens_set storeHash accessToken;;
         console_ log [LStr ("✅ Access token stored for store: " +:+ storeHash)];;
         registerMetadata storeHash accessToken;;
         ret (Send 200 installed_page))
    (fun err =>
       console_ error [LStr "❌ OAuth callback error:"; LMessage err];;
       ret (Send 400 callback_failed)).

(** ALL /v1/shipping/connection (lines 107-120). *)
Definition shipping_connection (req : request) : M response :=
  console_ log [LStr "✅ /v1/shipping/connection HIT";
                LObj [("method", str (req_method req));
                      ("headers",
                       Some (JObj (map (fun kv => let '(k, v) := kv in (k, JStr v))
                                       (req_headers req))))]];;
  ret (SendJson 200
         (JObj [("data",
                 JObj [("status", JStr "OK");
                       ("message", JStr "MyRover GTA Carrier connection verified")])])).

(** POST /v1/shipping/rates (lines 126-153). *)
Definition shipping_rates (req : request) : M response :=
  let body := or_else (req_body req) (Some (JObj [])) in
  console_ log [LStr "📦 /v1/shipping/rates request:"; LJsonText body];;
  let response :=
    JObj [("data",
           JArr [carrier_quote "myrover_same_day_gta"
                   "MyRover Same-Day Courier (GTA)" (JNum 1995 (-2));
                 carrier_quote "myrover_next_day_gta"
                   "MyRover Next-Day Courier (GTA)" (JNum 1495 (-2))])] in
  console_ log [LStr "📦 Returning rates:"; LVal (Some response)];;
  ret (SendJson 200 response).

(** GET /api/load (lines 199-210). *)
Definition load (req : request) : M response :=
  ret (Send 200
    (nl +:+
     "    <html>" +:+ nl +:+
     "      <body style=" +:+ dq +:+ "font-family: Arial, sans-serif; text-align:center; margin-top:40px;" +:+ dq +:+ ">" +:+ nl +:+
     "        <h1>🚚 MyRover GTA Carrier</h1>" +:+ nl +:+
     "        <p>Your shipping provider app is installed and running.</p>" +:+ nl +:+
     "        <p>Dummy rates are currently returned for testing.</p>" +:+ nl +:+
     "        <p>You can now connect this app inside Shipping Zones in BigCommerce.</p>" +:+ nl +:+
     "      </body>" +:+ nl +:+
     "    </html>" +:+ nl +:+
     "  ")).

(** POST /api/uninstall (lines 216-223). *)
Definition uninstall (req : request) : M response :=
  let storeHash := prop_opt (req_body req) "store_hash" in
  (if truthy storeHash then
     storeTokens_delete storeHash;;
     line <- template [str "🗑️ Uninstalled from store "; storeHash];;
     console_ log [line]
   else ret tt);;
  ret (SendJson 200 (JObj [("success", JBool true)])).

(** GET / (lines 229-233). *)
Definition root (req : request) : M response :=
  ret (Send 200
    ("<div style=" +:+ dq +:+ "font-family: Arial; padding: 20px;" +:+ dq
     +:+ ">MyRover Carrier API is running ✅</div>")).

End Server.
End A.

(** ** Variant B (index.js, lines 239-449)

    This variant declares no [storeTokens]; its handlers run over the same
    [state] so that the two variants can be compared, and none of them
    touches the map. *)

Module B.
Section Server.

Variables CLIENT_ID CLIENT_SECRET APP_URL : option string.
Variable fetch : fetch_init -> fetch_outcome.

(** [redirectUri] of lines 270 and 303. *)
Definition redirectUri : string := env_string APP_URL +:+ "/api/auth/callback".

(** [authorizeUrl] of lines 272-280. *)
Definition authorizeUrl (context scope : option qval) : string :=
  "https://login.bigcommerce.com/oauth2/authorize?client_id="
  +:+ JsString.encodeURIComponent (env_string CLIENT_ID)
  +:+ "&scope=" +:+ JsString.encodeURIComponent (toString scope)
  +:+ "&context=" +:+ JsString.encodeURIComponent (toString context)
  +:+ "&redirect_uri=" +:+ JsString.encodeURIComponent redirectUri
  +:+ "&response_type=code".

(** GET /api/install (lines 264-284). *)
Definition install (req : request) : M response :=
  let context := req_query req !! "context" in
  let scope := req_query req !! "scope" in
  if negb (truthy (of_query context)) || negb (truthy (of_query scope)) then
    ret (Send 400 "Missing context or scope")
  else
    let authorizeUrl := authorizeUrl context scope in
    console_ log [LStr "🔐 Redirecting to BigCommerce OAuth authorize:";
                  LStr authorizeUrl];;
    ret (Redirect 302 authorizeUrl).

(** The object [body] of lines 307-315. *)
Definition token_body (req : request) : list (string * jsval) :=
  let code := req_query req !! "code" in
  let context := req_query req !! "context" in
  let scope := req_query req !! "scope" in
  [("client_id", JStr <$> CLIENT_ID);
   ("client_secret", JStr <$> CLIENT_SECRET);
   ("redirect_uri", str redirectUri);
   ("grant_type", str "authorization_code");
   ("code", of_query code);
   ("scope", of_query scope);
   ("context", of_query context)].

(** The arguments of the [fetch] of lines 326-330. *)
Definition token_request (req : request) : fetch_init :=
  {| url := "https://login.bigcommerce.com/oauth2/token";
     init_method := "POST";
     init_headers := [("Content-Type", str "application/json")];
     init_body := object_literal (token_body req) |}.

(** [storeHash] of lines 341-343. *)
Definition storeHash (data : json) (context : option qval) : M string :=
  s <- call_replace
         (or_else (prop_opt (Some data) "context")
                  (or_else (of_query context) (str EmptyString)))
         "stores/" EmptyString;;
  ret (JsString.trim s).

Definition installed_page (store : string) : string :=
  nl +:+
  "      <html>" +:+ nl +:+
  "        <body style=" +:+ dq +:+ "font-family: Arial; text-align:center; margin-top:50px;" +:+ dq +:+ ">" +:+ nl +:+
  "          <h2>✅ MyRover Carrier App Installed</h2>" +:+ nl +:+
  "          <p>Store: <strong>" +:+ store +:+ "</strong></p>" +:+ nl +:+
  "          <p>You can now close this window and return to your BigCommerce admin.</p>" +:+ nl +:+
  "        </body>" +:+ nl +:+
  "      </html>" +:+ nl +:+
  "    ".

Definition exchange_failed : string :=
  "OAuth callback failed: token exchange error".

(** GET /api/auth/callback (lines 290-362). *)
Definition auth_callback (req : request) : M response :=
  try_catch
    (let code := req_query req !! "code" in
     let context := req_query req !! "context" in
     let scope := req_query req !! "scope" in
     console_ log [LStr "🔙 OAuth callback hit with:";
                   LObj [("code", of_query code); ("context", of_query context);
                         ("scope", of_query scope)]];;
     if negb (truthy (of_query code)) || negb (truthy (of_query context)) then
       console_ error [LStr "❌ Missing code or context from BigCommerce"];;
       ret (Send 400 "OAuth callback failed: missing code or context")
     else
       let tokenUrl := "https://login.bigcommerce.com/oauth2/token" in
       let body := token_body req in
       console_ log [LStr "🔐 Exchanging code for token at:"; LStr tokenUrl];;
       console_ log [LStr "🔐 Token request body (without secrets):";
                     LObj [("redirect_uri", mjoin (assoc "redirect_uri" body));
                           ("grant_type", mjoin (assoc "grant_type" body));
                           ("code", Some (JBool (truthy (mjoin (assoc "code" body)))));
                           ("scope", mjoin (assoc "scope" body));
                           ("context", mjoin (assoc "context" body))]];;
       tokenRes <- await (fetch (token_request req));;
       data <- try_catch (await_json tokenRes) (fun _ => ret (JObj []));;
       if negb (res_ok tokenRes) then
         console_ error [LStr "❌ OAuth token exchange failed:"; LVal (Some data)];;
         ret (Send 500 exchange_failed)
       else
         storeHash <- storeHash data context;;
         console_ log [LStr "✅ OAuth success. Store hash:"; LStr storeHash];;
         access_token <- read (Some data) "access_token";;
         console_ log [LStr "🔑 Access token (do NOT log this in real prod):";
                       LVal access_token];;
         ret (Send 200
                (installed_page
                   (if truthy (str storeHash) then storeHash else "unknown"))))
    (fun err =>
       console_ error [LStr "❌ OAuth callback failed:"; LErr err];;
       ret (Send 500 "OAuth callback failed on server.")).

(** GET /api/load (lines 368-378). *)
Definition load (req : request) : M response :=
  ret (Send 200
    (nl +:+
     "    <html>" +:+ nl +:+
     "      <body style=" +:+ dq +:+ "font-family: Arial; text-align:center; margin-top:50px;" +:+ dq +:+ ">" +:+ nl +:+
     "        <h1>🚚 MyRover GTA Carrier Dashboard</h1>" +:+ nl +:+
     "        <p>Your app is successfully connected to BigCommerce.</p>" +:+ nl +:+
     "        <p>Use MyRover to get live courier quotes in checkout.</p>" +:+ nl +:+
     "      </body>" +:+ nl +:+
     "    </html>" +:+ nl +:+
     "  ")).

(** POST /api/uninstall (lines 384-388). *)
Definition uninstall (req : request) : M response :=
  console_ log [LStr "🗑️ App uninstall called."];;
  ret (SendJson 200 (JObj [("success", JBool true)])).

(** POST /v1/shipping/connection (lines 394-402). *)
Definition shipping_connection (req : request) : M response :=
  console_ log [LStr "🔗 /v1/shipping/connection hit. Body:";
                LVal (req_body req)];;
  ret (SendJson 200
         (JObj [("data",
                 JObj [("status", JStr "OK");
                       ("message", JStr "MyRover GTA Carrier connection verified")])])).

(** POST /v1/shipping/rates (lines 408-434); [res.json] without a status
    answers 200. *)
Definition shipping_rates (req : request) : M response :=
  let body := or_else (req_body req) (Some (JObj [])) in
  console_ log [LStr "📦 /v1/shipping/rates request:"; LJsonText body];;
  let response :=
    JObj [("data",
           JArr [carrier_quote "myrover_same_day_gta"
                   "MyRover Same-Day Courier (GTA)" (JNum 1995 (-2));
                 carrier_quote "myrover_standard_gta"
                   "MyRover Next-Day Courier (GTA)" (JNum 125 (-1))])] in
  console_ log [LStr "📦 Returning dummy rates:"; LVal (Some response)];;
  ret (SendJson 200 response).

(** GET / (lines 440-444). *)
Definition root (req : request) : M response :=
  ret (Send 200
    ("<div style=" +:+ dq +:+ "font-family: Arial; padding: 20px;" +:+ dq
     +:+ ">MyRover Carrier API is running ✅</div>")).

End Server.
End B.

(** * What is observed of a run, and the requests and networks the
    statements below are checked on *)

Definition response_of (r : outcome response * state) : outcome response := fst r.

Definition store_of (r : outcome response * state) : gmap string jsval :=
  storeTokens (snd r).

Definition console_of (r : outcome response * state) : list log_event :=
  console (snd r).

(** A handler that never looks at the state and only writes to the
    console: the answer and the lines written are fixed by the request. *)
Definition stateless (h : request -> M response) : Prop :=
  forall req, exists resp lines, forall st,
    h req st = (Return resp,
                {| storeTokens := storeTokens st; console := console st ++ lines |}).



Definition success : json := JObj [("success", JBool true)].

Definition st0 : state := {| storeTokens := ∅; console := [] |}.

Definition install_request : request :=
  {| req_method := "GET"; req_headers := [];
     req_query := {[ "context" := QStr "stores/abc123";
                     "scope" := QStr "store_v2_orders users_basic_information" ]};
     req_body := None |}.

Definition stored_line (hash : string) : log_event :=
  (log, [LStr ("✅ Access token stored for store: " +:+ hash)]).

Definition unparsable_line : log_event :=
  (warn, [LStr "⚠️ Could not parse metadata response JSON"]).

Definition registration_failed_line (r : fetch_response) : log_event :=
  (error, [LStr "❌ Metadata registration failed:";
           LVal (Some (JNum (res_status r) 0));
           LVal (Some (default JNull (res_json r)))]).

(** A network that answers the token exchange with [tok] and every other
    request with [meta]. *)
Definition network (tok meta : fetch_outcome) (i : fetch_init) : fetch_outcome :=
  if String.eqb (url i) "https://login.bigcommerce.com/oauth2/token"
  then tok else meta.

Definition callback_request (context : string) : request :=
  {| req_method := "GET"; req_headers := [];
     req_query := {[ "code" := QStr "c0de"; "context" := QStr context;
                     "scope" := QStr "store_v2_orders" ]};
     req_body := None |}.

Definition granted_data : json :=
  JObj [("access_token", JStr "T"); ("context", JStr "stores/abc123")].

Definition granted : fetch_response :=
  {| res_status := 200;
     res_json := Some granted_data |}.

Definition refused : fetch_response :=
  {| res_status := 401;
     res_json := Some (JObj [("error", JStr "invalid_client: secret rejected")]) |}.

Definition bad_gateway : fetch_response :=
  {| res_status := 502; res_json := None |}.

Definition created : fetch_response :=
  {| res_status := 200; res_json := Some (JObj [("data", JArr [])]) |}.

Definition two_stores : state :=
  {| storeTokens := {[ "abc123" := Some (JStr "T"); "other" := Some (JStr "U") ]};
     console := [] |}.

Definition uninstall_request (store_hash : json) : request :=
  {| req_method := "POST"; req_headers := []; req_query := ∅;
     req_body := Some (JObj [("store_hash", store_hash)]) |}.

(** The number of times the character [c] stands in [s]. *)
Fixpoint occurrences (c : ascii) (s : string) : nat :=
  match s with
  | EmptyString => 0
  | String a s' => (if Ascii.eqb a c then 1 else 0) + occurrences c s'
  end.

(** What [encodeURIComponent] writes: nothing but the characters it leaves
    as they are, the percent sign and hexadecimal digits. *)
Definition uri_safe (c : ascii) : bool :=
  JsString.unescaped c || Ascii.eqb c "%"
  || JsString.includes (String c EmptyString) "0123456789ABCDEF".

(** A network that grants the token "T" to the code "c0de" and the token
    "T2" to any other code, and accepts every other request. *)
Definition regranting_network (i : fetch_init) : fetch_outcome :=
  match prop (init_body i) "code" with
  | Some (JStr code) =>
      Resolved {| res_status := 200;
                  res_json := Some (JObj [("access_token",
                                           JStr (if String.eqb code "c0de"
                                                 then "T" else "T2"))]) |}
  | _ => Resolved created
  end.

Definition second_callback_request : request :=
  {| req_method := "GET"; req_headers := [];
     req_query := {[ "code" := QStr "an0ther"; "context" := QStr "stores/abc123" ]};
     req_body := None |}.






(** * Properties *)

(** ** Facts about the string functions *)

Section StringFacts.
Import JsString.

Lemma startsWith_app (p t : string) : startsWith p (p +:+ t) = true.
Proof.
  induction p as [|c p IH]; simpl; [reflexivity|].
  rewrite Ascii.eqb_refl. exact IH.
Qed.

Lemma includes_here (p t : string) : includes p (p +:+ t) = true.
Proof.
  destruct p as [|c p]; simpl.
  - destruct t; reflexivity.
  - rewrite Ascii.eqb_refl, startsWith_app. reflexivity.
Qed.

Lemma includes_app_r (p s t : string) :
  includes p t = true -> includes p (s +:+ t) = true.
Proof.
  intros H. induction s as [|c s IH]; simpl; [exact H|].
  rewrite IH. apply orb_true_r.
Qed.

Lemma includes_false_inv (p : string) (c : ascii) (s : string) :
  includes p (String c s) = false ->
  startsWith p (String c s) = false /\ includes p s = false.
Proof. simpl. intros H. apply orb_false_elim in H. exact H. Qed.

Lemma replace_absent (pat rep s : string) :
  includes pat s = false -> replace pat rep s = s.
Proof.
  induction s as [|c s IH]; intros H.
  - destruct pat; [discriminate H | reflexivity].
  - destruct (includes_false_inv _ _ _ H) as [Hp Hs].
    cbn [replace]. rewrite Hp, (IH Hs). reflexivity.
Qed.

Lemma slice_app (p t : string) : slice (String.length p) (p +:+ t) = t.
Proof. induction p as [|c p IH]; simpl; [destruct t; reflexivity | exact IH]. Qed.

Lemma replace_prefix (pat rep t : string) :
  replace pat rep (pat +:+ t) = rep +:+ t.
Proof.
  destruct (pat +:+ t) as [|c s] eqn:E;
    cbn [replace]; rewrite <- E, startsWith_app, slice_app; reflexivity.
Qed.

Lemma append_assoc (s t u : string) : (s +:+ t) +:+ u = s +:+ t +:+ u.
Proof.
  induction s as [|c s IH]; [reflexivity|].
  change (String c ((s +:+ t) +:+ u) = String c (s +:+ t +:+ u)).
  rewrite IH. reflexivity.
Qed.

Lemma length_append (s t : string) :
  String.length (s +:+ t) = String.length s + String.length t.
Proof.
  induction s as [|c s IH]; [reflexivity|].
  change (S (String.length (s +:+ t)) = S (String.length s + String.length t)).
  rewrite IH. reflexivity.
Qed.

(** Whether [s] starts with [p] is settled by the first [length p]
    characters of [s]. *)
Lemma startsWith_app_long (p s t : string) :
  String.length p <= String.length s -> startsWith p (s +:+ t) = startsWith p s.
Proof.
  revert s. induction p as [|a p IH]; intros s Hlen; [reflexivity|].
  destruct s as [|b s]; cbn [String.length] in Hlen; [lia|].
  change (Ascii.eqb a b && startsWith p (s +:+ t)
          = Ascii.eqb a b && startsWith p s).
  rewrite IH by lia. reflexivity.
Qed.

(** When no occurrence of "stores/" starts inside [a], the occurrence
    that follows [a] is the first one, and the one removed. *)
Lemma replace_first_stores (a b : string) :
  includes "stores/" (a +:+ "stores") = false ->
  replace "stores/" EmptyString (a +:+ "stores/" +:+ b) = a +:+ b.
Proof.
  induction a as [|c a IH]; intros H; [reflexivity|].
  change (String c a +:+ "stores") with (String c (a +:+ "stores")) in H.
  destruct (includes_false_inv _ _ _ H) as [Hp Hs].
  assert (String c a +:+ "stores/" +:+ b
          = String c (a +:+ "stores") +:+ ("/" +:+ b)) as E.
  { change (String c (a +:+ "stores/" +:+ b)
            = String c ((a +:+ "stores") +:+ ("/" +:+ b))).
    rewrite append_assoc. reflexivity. }
  assert (startsWith "stores/" (String c a +:+ "stores/" +:+ b) = false) as Hp'.
  { rewrite E, startsWith_app_long, Hp; [reflexivity|].
    change (7 <= S (String.length (a +:+ "stores"))).
    rewrite length_append. change (String.length "stores") with 6. lia. }
  change (String c a +:+ "stores/" +:+ b)
    with (String c (a +:+ "stores/" +:+ b)) in Hp' |- *.
  cbn [replace]. rewrite Hp', (IH Hs). reflexivity.
Qed.

End StringFacts.

(** ** Running a handler *)

Ltac unfold_monad :=
  unfold response_of, store_of, console_of, bind, ret, throw, try_catch,
    console_, storeTokens_set, storeTokens_delete in *.

Lemma stateless_response h req st1 st2 :
  stateless h -> response_of (h req st1) = response_of (h req st2).
Proof.
  intros Hh. destruct (Hh req) as (resp & lines & E).
  unfold response_of. rewrite (E st1), (E st2). reflexivity.
Qed.

Lemma stateless_store h req st :
  stateless h -> store_of (h req st) = storeTokens st.
Proof.
  intros Hh. destruct (Hh req) as (resp & lines & E).
  unfold store_of. rewrite (E st). reflexivity.
Qed.

Lemma A_connection_stateless : stateless A.shipping_connection.
Proof. intros req. eexists _, _. intros st. reflexivity. Qed.

Lemma A_rates_stateless : stateless A.shipping_rates.
Proof.
  intros req. eexists _, _. intros st.
  unfold A.shipping_rates. unfold_monad. simpl.
  rewrite <- app_assoc. reflexivity.
Qed.

Lemma B_connection_stateless : stateless B.shipping_connection.
Proof. intros req. eexists _, _. intros st. reflexivity. Qed.

Lemma B_rates_stateless : stateless B.shipping_rates.
Proof.
  intros req. eexists _, _. intros st.
  unfold B.shipping_rates. unfold_monad. simpl.
  rewrite <- app_assoc. reflexivity.
Qed.

(** ** The rate quotes *)




(** ** Uninstall *)

Lemma template_identifier (v : jsval) (st : state) :
  template [str "🗑️ Uninstalled from store "; v] st
  = if printable_val v
    then (Return (LTemplate [str "🗑️ Uninstalled from store "; v]), st)
    else (Throw TypeError, st).
Proof.
  unfold template. cbn [forallb printable_val printable str andb].
  rewrite andb_true_r. destruct (printable_val v); reflexivity.
Qed.

Lemma A_uninstall_response (req : request) (st : state) :
  response_of (A.uninstall req st)
  = if truthy (prop_opt (req_body req) "store_hash")
       && negb (printable_val (prop_opt (req_body req) "store_hash"))
    then Throw TypeError
    else Return (SendJson 200 success).
Proof.
  unfold A.uninstall. unfold_monad.
  destruct (truthy (prop_opt (req_body req) "store_hash")); [|reflexivity].
  cbv beta. rewrite template_identifier.
  destruct (printable_val (prop_opt (req_body req) "store_hash")); reflexivity.
Qed.

Lemma A_uninstall_store (req : request) (st : state) :
  store_of (A.uninstall req st)
  = match prop_opt (req_body req) "store_hash" with
    | Some (JStr (String c s)) => delete (String c s) (storeTokens st)
    | _ => storeTokens st
    end.
Proof.
  unfold A.uninstall. unfold_monad.
  destruct (prop_opt (req_body req) "store_hash")
    as [[| b | m e | [|c s] | l | l]|] eqn:E; try reflexivity.
  - destruct b; reflexivity.
  - unfold truthy. destruct (nonzero_double m e); reflexivity.
  - unfold truthy. cbv beta. rewrite template_identifier.
    destruct (printable_val (Some (JArr l))); reflexivity.
  - unfold truthy. cbv beta. rewrite template_identifier.
    destruct (printable_val (Some (JObj l))); reflexivity.
Qed.

(** C8 fails on variant A at this request: the identifier is an object
    with a member named [toString], which is truthy but cannot be put
    into the console line of line 220; the handler throws there and never
    reaches the answer of line 222.  Variant B answers 200 to the same
    request. *)
Theorem uninstall_unprintable_identifier_throws :
  let req := uninstall_request (JObj [("toString", JNum 0 0)]) in
  truthy (prop_opt (req_body req) "store_hash") = true
  /\ response_of (A.uninstall req two_stores) = Throw TypeError
  /\ store_of (A.uninstall req two_stores) = storeTokens two_stores
  /\ response_of (B.uninstall req two_stores) = Return (SendJson 200 success).
Proof. cbv zeta. repeat split. Qed.

(** C10. An uninstall request that carries the store identifier [X]
    leaves the credential of every other identifier as it was. *)
Theorem uninstall_frame (req : request) (st : state) (X : json) (k : string) :
  prop_opt (req_body req) "store_hash" = Some X ->
  X <> JStr k ->
  store_of (A.uninstall req st) !! k = storeTokens st !! k.
Proof.
  intros HX Hk. rewrite A_uninstall_store, HX.
  destruct X as [| | | [|c s] | |]; try reflexivity.
  apply lookup_delete_ne. congruence.
Qed.

(** C9. The connection-test and rate-quote handlers answer the same from
    any two states, and leave the store as they found it. *)
Theorem shipping_handlers_ignore_store (req : request) (st1 st2 : state) :
  response_of (A.shipping_connection req st1)
    = response_of (A.shipping_connection req st2)
  /\ response_of (A.shipping_rates req st1) = response_of (A.shipping_rates req st2)
  /\ store_of (A.shipping_connection req st1) = storeTokens st1
  /\ store_of (A.shipping_rates req st1) = storeTokens st1
  /\ response_of (B.shipping_connection req st1)
    = response_of (B.shipping_connection req st2)
  /\ response_of (B.shipping_rates req st1) = response_of (B.shipping_rates req st2)
  /\ store_of (B.shipping_connection req st1) = storeTokens st1
  /\ store_of (B.shipping_rates req st1) = storeTokens st1.
Proof.
  repeat split;
    first [ apply stateless_response | apply stateless_store ];
    auto using A_connection_stateless, A_rates_stateless,
      B_connection_stateless, B_rates_stateless.
Qed.

(** ** Install *)

Lemma env_truthy_nonempty (s : string) :
  s <> EmptyString -> env_truthy (Some s) = true.
Proof. destruct s; [congruence | reflexivity]. Qed.

Lemma truthy_query_nonempty (s : string) :
  s <> EmptyString -> truthy (of_query (Some (QStr s))) = true.
Proof. destruct s; [congruence | reflexivity]. Qed.

Lemma startsWith_refl (p : string) : JsString.startsWith p p = true.
Proof.
  induction p as [|c p IH]; simpl; [reflexivity|].
  rewrite Ascii.eqb_refl. exact IH.
Qed.

Lemma includes_refl (p : string) : JsString.includes p p = true.
Proof.
  destruct p as [|c p]; [reflexivity|].
  cbn [JsString.includes]. rewrite startsWith_refl. reflexivity.
Qed.

Ltac find_part :=
  solve [ repeat first [ apply includes_here | apply includes_refl
                       | apply includes_app_r ] ].

(** C6, as index.js has it: in variant A a request to /api/install is
    answered 500, not redirected, whenever the client identifier or the
    base URL is unset or empty, whatever its parameters.  (Variant B has no
    such check.) *)
Theorem install_requires_configuration
    (CLIENT_ID APP_URL : option string) (req : request) (st : state) :
  env_truthy CLIENT_ID = false \/ env_truthy APP_URL = false ->
  response_of (A.install CLIENT_ID APP_URL req st)
    = Return (Send 500 A.not_configured)
  /\ store_of (A.install CLIENT_ID APP_URL req st) = storeTokens st.
Proof.
  intros H. unfold A.install.
  assert (negb (env_truthy CLIENT_ID) || negb (env_truthy APP_URL) = true) as ->.
  { destruct H as [-> | ->]; [reflexivity | apply orb_true_r]. }
  split; reflexivity.
Qed.

Lemma install_requires_configuration_witness :
  (env_truthy None = false \/ env_truthy (Some "https://app.example") = false)
  /\ response_of (A.install None (Some "https://app.example") install_request st0)
     = Return (Send 500 A.not_configured).
Proof.
  split; [left; reflexivity|].
  apply (install_requires_configuration None (Some "https://app.example")
           install_request st0).
  left; reflexivity.
Defined.

(** C6 as stated fails on variant B: with neither the client identifier
    nor the base URL set, a request that has both parameters is
    redirected (302) to the authorize endpoint. *)
Lemma install_B_redirects_unconfigured :
  env_truthy None = false
  /\ response_of (B.install None None install_request st0)
     = Return (Redirect 302
         "https://login.bigcommerce.com/oauth2/authorize?client_id=undefined&scope=store_v2_orders%20users_basic_information&context=stores%2Fabc123&redirect_uri=undefined%2Fapi%2Fauth%2Fcallback&response_type=code").
Proof. split; vm_compute; reflexivity. Qed.

(** C7, as index.js has it: with configuration present and non-empty
    [context] and [scope], the answer is a 302 redirect to the URL written
    out below.  That URL contains the URL-encoded scope, the URL-encoded
    context, the URL-encoded callback URL (base URL followed by
    /api/auth/callback), response_type=code, and the client identifier: as
    configured in variant A, URL-encoded in variant B. *)
Theorem install_redirect_target
    (cid base ctx sc : string) (req : request) (st : state) :
  cid <> EmptyString -> base <> EmptyString ->
  req_query req !! "context" = Some (QStr ctx) -> ctx <> EmptyString ->
  req_query req !! "scope" = Some (QStr sc) -> sc <> EmptyString ->
  let enc := JsString.encodeURIComponent in
  let callback := base +:+ "/api/auth/callback" in
  let target_A :=
    "https://login.bigcommerce.com/oauth2/authorize?client_id=" +:+ cid
    +:+ "&scope=" +:+ enc sc +:+ "&redirect_uri=" +:+ enc callback
    +:+ "&response_type=code&context=" +:+ enc ctx in
  let target_B :=
    "https://login.bigcommerce.com/oauth2/authorize?client_id=" +:+ enc cid
    +:+ "&scope=" +:+ enc sc +:+ "&context=" +:+ enc ctx
    +:+ "&redirect_uri=" +:+ enc callback +:+ "&response_type=code" in
  response_of (A.install (Some cid) (Some base) req st)
    = Return (Redirect 302 target_A)
  /\ response_of (B.install (Some cid) (Some base) req st)
    = Return (Redirect 302 target_B)
  /\ (JsString.includes (enc sc) target_A = true
      /\ JsString.includes (enc ctx) target_A = true
      /\ JsString.includes (enc callback) target_A = true
      /\ JsString.includes cid target_A = true
      /\ JsString.includes "response_type=code" target_A = true)
  /\ (JsString.includes (enc sc) target_B = true
      /\ JsString.includes (enc ctx) target_B = true
      /\ JsString.includes (enc callback) target_B = true
      /\ JsString.includes (enc cid) target_B = true
      /\ JsString.includes "response_type=code" target_B = true).
Proof.
  intros Hcid Hbase Hctx Hctx' Hsc Hsc'. cbv zeta.
  split; [|split; [|split]].
  - unfold A.install. rewrite Hctx, Hsc.
    rewrite !env_truthy_nonempty, !truthy_query_nonempty by assumption.
    reflexivity.
  - unfold B.install. rewrite Hctx, Hsc.
    rewrite !truthy_query_nonempty by assumption.
    reflexivity.
  - repeat split; try find_part.
    change ("&response_type=code&context=" +:+ ?x)
      with ("&" +:+ "response_type=code" +:+ "&context=" +:+ x).
    find_part.
  - repeat split; try find_part.
    change "&response_type=code" with ("&" +:+ "response_type=code").
    find_part.
Qed.

Lemma install_redirect_target_witness :
  req_query install_request !! "context" = Some (QStr "stores/abc123")
  /\ req_query install_request !! "scope"
     = Some (QStr "store_v2_orders users_basic_information")
  /\ response_of (A.install (Some "cid") (Some "https://app.example")
                    install_request st0)
     = Return (Redirect 302
         "https://login.bigcommerce.com/oauth2/authorize?client_id=cid&scope=store_v2_orders%20users_basic_information&redirect_uri=https%3A%2F%2Fapp.example%2Fapi%2Fauth%2Fcallback&response_type=code&context=stores%2Fabc123").
Proof.
  split; [reflexivity|]. split; [reflexivity|].
  apply (install_redirect_target "cid" "https://app.example" "stores/abc123"
           "store_v2_orders users_basic_information" install_request st0);
    first [ discriminate | reflexivity ].
Defined.

(** C7 as stated fails: the callback URL itself (base URL followed by
    /api/auth/callback) occurs nowhere in the redirect target of either
    variant; what the target carries is its URL-encoded form. *)
Lemma install_target_lacks_plain_callback :
  let callback := "https://app.example/api/auth/callback" in
  let target_A :=
    "https://login.bigcommerce.com/oauth2/authorize?client_id=cid&scope=store_v2_orders%20users_basic_information&redirect_uri=https%3A%2F%2Fapp.example%2Fapi%2Fauth%2Fcallback&response_type=code&context=stores%2Fabc123" in
  let target_B :=
    "https://login.bigcommerce.com/oauth2/authorize?client_id=cid&scope=store_v2_orders%20users_basic_information&context=stores%2Fabc123&redirect_uri=https%3A%2F%2Fapp.example%2Fapi%2Fauth%2Fcallback&response_type=code" in
  response_of (A.install (Some "cid") (Some "https://app.example")
                 install_request st0) = Return (Redirect 302 target_A)
  /\ response_of (B.install (Some "cid") (Some "https://app.example")
                    install_request st0) = Return (Redirect 302 target_B)
  /\ JsString.includes callback target_A = false
  /\ JsString.includes callback target_B = false.
Proof. cbv zeta. repeat split; vm_compute; reflexivity. Qed.

(** ** The OAuth callback *)

Lemma read_object (data : json) (k : string) :
  data <> JNull -> read (Some data) k = ret (prop data k).
Proof. destruct data; try reflexivity. congruence. Qed.

Section Callback.

Variables CLIENT_ID CLIENT_SECRET APP_URL : option string.
Variable fetch : fetch_init -> fetch_outcome.

Local Abbreviation callback_A :=
  (A.auth_callback CLIENT_ID CLIENT_SECRET APP_URL fetch).
Local Abbreviation callback_B :=
  (B.auth_callback CLIENT_ID CLIENT_SECRET APP_URL fetch).

(** [registerMetadata] never writes to the store. *)
Lemma registerMetadata_store (hash : string) (token : jsval) (st : state) :
  storeTokens (snd (A.registerMetadata fetch hash token st)) = storeTokens st.
Proof.
  unfold A.registerMetadata, await, await_json. unfold_monad. simpl.
  destruct (fetch _) as [r'|reason]; [|reflexivity].
  destruct (res_json r'); simpl; destruct (res_ok r'); reflexivity.
Qed.

(** Once its request has come back, whatever the status and the body,
    [registerMetadata] returns normally. *)
Lemma registerMetadata_resolved (hash : string) (token : jsval) (st : state)
    (r' : fetch_response) :
  fetch (A.metadata_request hash token) = Resolved r' ->
  fst (A.registerMetadata fetch hash token st) = Return tt.
Proof.
  intros E. unfold A.registerMetadata, await, await_json. unfold_monad.
  rewrite E. simpl.
  destruct (res_json r'); simpl; destruct (res_ok r'); reflexivity.
Qed.

Lemma registerMetadata_logs_failure (hash : string) (token : jsval)
    (st : state) (r' : fetch_response) :
  fetch (A.metadata_request hash token) = Resolved r' ->
  res_ok r' = false ->
  In (registration_failed_line r')
     (console (snd (A.registerMetadata fetch hash token st))).
Proof.
  intros E Hok. unfold A.registerMetadata, await, await_json. unfold_monad.
  rewrite E. simpl.
  destruct (res_json r') eqn:Ej; simpl; rewrite Hok; simpl;
    apply in_or_app; right; left; unfold registration_failed_line;
    rewrite Ej; reflexivity.
Qed.

Lemma registerMetadata_logs_unparsable (hash : string) (token : jsval)
    (st : state) (r' : fetch_response) :
  fetch (A.metadata_request hash token) = Resolved r' ->
  res_json r' = None ->
  In unparsable_line (console (snd (A.registerMetadata fetch hash token st))).
Proof.
  intros E Hj. unfold A.registerMetadata, await, await_json. unfold_monad.
  rewrite E. simpl. rewrite Hj. simpl.
  destruct (res_ok r'); simpl; apply in_or_app; left;
    apply in_or_app; right; left; reflexivity.
Qed.

(** The callback of variant A after an exchange that succeeded: the
    token is stored under the identifier, then the metadata is
    registered, and what the answer is depends on whether that call
    threw. *)
Lemma A_callback_exchanged (req : request) (st : state) (ctx : string)
    (r : fetch_response) (data : json) :
  truthy (of_query (req_query req !! "code")) = true ->
  req_query req !! "context" = Some (QStr ctx) -> ctx <> EmptyString ->
  fetch (A.token_request CLIENT_ID CLIENT_SECRET APP_URL req) = Resolved r ->
  res_ok r = true -> res_json r = Some data -> data <> JNull ->
  callback_A req st
  = let hash := JsString.replace "stores/" EmptyString ctx in
    let token := prop data "access_token" in
    let st1 := {| storeTokens := <[hash := token]> (storeTokens st);
                  console := console st ++ [stored_line hash] |} in
    match A.registerMetadata fetch hash token st1 with
    | (Return _, st2) => (Return (Send 200 A.installed_page), st2)
    | (Throw e, st2) =>
        (Return (Send 400 A.callback_failed),
         {| storeTokens := storeTokens st2;
            console := console st2
                       ++ [(error, [LStr "❌ OAuth callback error:"; LMessage e])] |})
    end.
Proof.
  intros Hcode Hctx Hne Hf Hok Hj Hd.
  unfold A.auth_callback, A.storeHash, call_replace, await, await_json.
  unfold_monad.
  rewrite Hcode, Hctx, (truthy_query_nonempty ctx Hne), Hf, Hj, Hok.
  cbn [negb orb of_query fmap option_fmap option_map json_of_qval].
  rewrite (read_object data _ Hd). unfold_monad.
  cbn [storeTokens console].
  destruct (A.registerMetadata _ _ _ _) as [[[]|e] st2]; reflexivity.
Qed.

(** Every way the callback of variant A can fail before the token is
    read gives the same page and leaves the store alone. *)
Lemma A_callback_exchange_refused (req : request) (st : state)
    (r : fetch_response) :
  fetch (A.token_request CLIENT_ID CLIENT_SECRET APP_URL req) = Resolved r ->
  res_ok r = false ->
  response_of (callback_A req st) = Return (Send 400 A.callback_failed)
  /\ store_of (callback_A req st) = storeTokens st.
Proof.
  intros Hf Hok.
  unfold A.auth_callback, A.storeHash, call_replace, await,
    await_json, read. unfold_monad.
  destruct (negb (truthy (of_query (req_query req !! "code")))
            || negb (truthy (of_query (req_query req !! "context"))));
    [split; reflexivity|].
  destruct (of_query (req_query req !! "context")) as [[| | | s | |]|];
    try (split; reflexivity).
  rewrite Hf. cbn [fst snd].
  destruct (res_json r) as [data|]; [|split; reflexivity].
  rewrite Hok. cbn [negb].
  destruct data; unfold new_Error; unfold_monad;
    try destruct (printable_val _); split; reflexivity.
Qed.

Lemma B_callback_exchange_refused (req : request) (st : state)
    (r : fetch_response) :
  truthy (of_query (req_query req !! "code")) = true ->
  truthy (of_query (req_query req !! "context")) = true ->
  fetch (B.token_request CLIENT_ID CLIENT_SECRET APP_URL req) = Resolved r ->
  res_ok r = false ->
  response_of (callback_B req st) = Return (Send 500 B.exchange_failed)
  /\ store_of (callback_B req st) = storeTokens st.
Proof.
  intros Hcode Hctx Hf Hok.
  unfold B.auth_callback, await, await_json. unfold_monad.
  rewrite Hcode, Hctx, Hf. cbn [negb orb fst snd].
  destruct (res_json r) as [data|]; rewrite Hok; split; reflexivity.
Qed.

(** Variant B never writes to the store. *)
Lemma B_callback_store (req : request) (st : state) :
  store_of (callback_B req st) = storeTokens st.
Proof.
  unfold B.auth_callback, B.storeHash, call_replace, await,
    await_json, read. unfold_monad.
  destruct (negb (truthy (of_query (req_query req !! "code")))
            || negb (truthy (of_query (req_query req !! "context"))));
    [reflexivity|].
  destruct (fetch _) as [r|reason]; [|reflexivity]. cbn [fst snd].
  destruct (res_json r) as [data|]; cbn [fst snd];
    destruct (res_ok r); cbn [negb]; try reflexivity.
  - destruct (or_else _ _) as [[| | | s | |]|]; try reflexivity.
    destruct data; reflexivity.
  - destruct (or_else _ _) as [[| | | s | |]|]; reflexivity.
Qed.

End Callback.

Lemma token_request_same (CLIENT_ID CLIENT_SECRET APP_URL : option string)
    (req : request) :
  B.token_request CLIENT_ID CLIENT_SECRET APP_URL req
  = A.token_request CLIENT_ID CLIENT_SECRET APP_URL req.
Proof. reflexivity. Qed.

(** *** Concrete requests and networks *)

(** *** Deriving the store identifier *)

(** C3, as index.js has it: the identifier is the context with the first
    occurrence of "stores/" removed, wherever it stands (variant B then
    trims white space from both ends).  So a context in which "stores/"
    does not occur passes through unchanged (trimmed, in variant B); a
    context that begins with "stores/" loses exactly that prefix (and is
    then trimmed, in variant B); and a context [a ++ "stores/" ++ b] in
    which no occurrence starts inside [a] becomes [a ++ b].  In variant B
    the context is the one the exchange returned when that is truthy, else
    the request's. *)
Theorem storeHash_removes_first_occurrence
    (ctx rest a b : string) (data : json) (q : option qval) (st : state) :
  let chosen :=
    or_else (prop_opt (Some data) "context")
            (or_else (of_query q) (str EmptyString)) in
  (JsString.includes "stores/" ctx = false ->
   A.storeHash (Some (QStr ctx)) st = (Return ctx, st))
  /\ A.storeHash (Some (QStr ("stores/" +:+ rest))) st = (Return rest, st)
  /\ (JsString.includes "stores/" (a +:+ "stores") = false ->
      A.storeHash (Some (QStr (a +:+ "stores/" +:+ b))) st = (Return (a +:+ b), st))
  /\ (chosen = str ctx -> JsString.includes "stores/" ctx = false ->
      B.storeHash data q st = (Return (JsString.trim ctx), st))
  /\ (chosen = str ("stores/" +:+ rest) ->
      B.storeHash data q st = (Return (JsString.trim rest), st))
  /\ (chosen = str (a +:+ "stores/" +:+ b) ->
      JsString.includes "stores/" (a +:+ "stores") = false ->
      B.storeHash data q st = (Return (JsString.trim (a +:+ b)), st)).
Proof.
  cbv zeta. split; [|split; [|split; [|split; [|split]]]].
  - intros H. unfold A.storeHash, call_replace, ret. simpl.
    rewrite (replace_absent _ _ _ H). reflexivity.
  - reflexivity.
  - intros H. unfold A.storeHash, call_replace, ret. simpl.
    rewrite (replace_first_stores _ _ H). reflexivity.
  - intros E H. unfold B.storeHash, call_replace. unfold_monad. rewrite E.
    unfold str. rewrite (replace_absent _ _ _ H). reflexivity.
  - intros E. unfold B.storeHash, call_replace. unfold_monad. rewrite E.
    reflexivity.
  - intros E H. unfold B.storeHash, call_replace. unfold_monad. rewrite E.
    unfold str. rewrite (replace_first_stores _ _ H). reflexivity.
Qed.

Lemma storeHash_removes_first_occurrence_witness :
  A.storeHash (Some (QStr "Stores/abc123")) st0 = (Return "Stores/abc123", st0)
  /\ A.storeHash (Some (QStr "my-stores/abc123")) st0 = (Return "my-abc123", st0)
  /\ B.storeHash (JObj [("access_token", JStr "T")])
       (Some (QStr " abc123 ")) st0 = (Return "abc123", st0)
  /\ B.storeHash granted_data (Some (QStr "stores/other")) st0
     = (Return "abc123", st0).
Proof.
  pose proof (storeHash_removes_first_occurrence "Stores/abc123" EmptyString
                "my-" "abc123" JNull None st0) as HA.
  pose proof (storeHash_removes_first_occurrence " abc123 " EmptyString
                EmptyString EmptyString (JObj [("access_token", JStr "T")])
                (Some (QStr " abc123 ")) st0) as HB.
  pose proof (storeHash_removes_first_occurrence EmptyString "abc123"
                EmptyString EmptyString granted_data
                (Some (QStr "stores/other")) st0) as HB'.
  cbv zeta in HA, HB, HB'.
  destruct HA as (HA1 & _ & HA3 & _).
  destruct HB as (_ & _ & _ & HB1 & _).
  destruct HB' as (_ & _ & _ & _ & HB2 & _).
  split; [apply HA1; reflexivity|].
  split; [apply HA3; reflexivity|].
  split; [apply HB1; reflexivity|].
  apply HB2; reflexivity.
Defined.

(** C3 as stated fails: a context that does not begin with "stores/" but
    contains it does not pass through unchanged (variant A), and in
    variant B what is left after the prefix is also trimmed. *)
Lemma storeHash_not_a_prefix_strip :
  JsString.startsWith "stores/" "my-stores/abc123" = false
  /\ A.storeHash (Some (QStr "my-stores/abc123")) st0 = (Return "my-abc123", st0)
  /\ B.storeHash (JObj []) (Some (QStr "my-stores/abc123")) st0
     = (Return "my-abc123", st0)
  /\ JsString.startsWith "stores/" "stores/ abc123 " = true
  /\ B.storeHash (JObj []) (Some (QStr "stores/ abc123 ")) st0
     = (Return "abc123", st0).
Proof. repeat split; vm_compute; reflexivity. Qed.

(** *** A refused exchange *)

(** C4. When the token exchange comes back with a status outside
    200..299, the callback answers with a fixed failure page (400 in
    variant A, 500 in variant B): the same text whatever the secret, the
    code and the body of the refusal, so nothing of them is in it.  The
    store is left as it was.  (Both variants send the same exchange
    request, [token_request_same].) *)
Theorem callback_exchange_refused
    (CLIENT_ID CLIENT_SECRET APP_URL : option string)
    (fetch : fetch_init -> fetch_outcome) (req : request) (st : state)
    (r : fetch_response) :
  truthy (of_query (req_query req !! "code")) = true ->
  truthy (of_query (req_query req !! "context")) = true ->
  fetch (A.token_request CLIENT_ID CLIENT_SECRET APP_URL req) = Resolved r ->
  res_ok r = false ->
  let run_A := A.auth_callback CLIENT_ID CLIENT_SECRET APP_URL fetch req st in
  let run_B := B.auth_callback CLIENT_ID CLIENT_SECRET APP_URL fetch req st in
  response_of run_A
    = Return (Send 400 "OAuth callback failed. Check server logs for more details.")
  /\ store_of run_A = storeTokens st
  /\ response_of run_B
    = Return (Send 500 "OAuth callback failed: token exchange error")
  /\ store_of run_B = storeTokens st.
Proof.
  intros Hcode Hctx Hf Hok. cbv zeta.
  destruct (A_callback_exchange_refused CLIENT_ID CLIENT_SECRET APP_URL fetch
              req st r Hf Hok) as [HA1 HA2].
  destruct (B_callback_exchange_refused CLIENT_ID CLIENT_SECRET APP_URL fetch
              req st r Hcode Hctx Hf Hok) as [HB1 HB2].
  auto.
Qed.

Lemma callback_exchange_refused_witness :
  let fetch := network (Resolved refused) (Resolved created) in
  let req := callback_request "stores/abc123" in
  res_ok refused = false
  /\ response_of (A.auth_callback (Some "cid") (Some "s3cret")
                    (Some "https://app.example") fetch req st0)
     = Return (Send 400 "OAuth callback failed. Check server logs for more details.")
  /\ store_of (A.auth_callback (Some "cid") (Some "s3cret")
                 (Some "https://app.example") fetch req st0) = ∅.
Proof.
  cbv zeta. split; [reflexivity|].
  pose proof (callback_exchange_refused (Some "cid") (Some "s3cret")
                (Some "https://app.example")
                (network (Resolved refused) (Resolved created))
                (callback_request "stores/abc123") st0 refused) as H.
  cbv zeta in H.
  destruct H as (H1 & H2 & _); [reflexivity .. |].
  split; [exact H1 | exact H2].
Defined.

(** *** A successful exchange *)

(** C5. After a token exchange that succeeded, a metadata registration
    that comes back with a status outside 200..299, or with a body that is
    not JSON, is written to the console and goes no further: the callback
    answers 200 with the confirmation page. *)
Theorem callback_survives_registration_failure
    (CLIENT_ID CLIENT_SECRET APP_URL : option string)
    (fetch : fetch_init -> fetch_outcome) (req : request) (st : state)
    (ctx : string) (r r' : fetch_response) (data : json) :
  truthy (of_query (req_query req !! "code")) = true ->
  req_query req !! "context" = Some (QStr ctx) -> ctx <> EmptyString ->
  fetch (A.token_request CLIENT_ID CLIENT_SECRET APP_URL req) = Resolved r ->
  res_ok r = true -> res_json r = Some data -> data <> JNull ->
  fetch (A.metadata_request (JsString.replace "stores/" EmptyString ctx)
           (prop data "access_token")) = Resolved r' ->
  res_ok r' = false \/ res_json r' = None ->
  let run := A.auth_callback CLIENT_ID CLIENT_SECRET APP_URL fetch req st in
  response_of run = Return (Send 200 A.installed_page)
  /\ (res_ok r' = false -> In (registration_failed_line r') (console_of run))
  /\ (res_json r' = None -> In unparsable_line (console_of run)).
Proof.
  intros Hcode Hctx Hne Hf Hok Hj Hd Hm _. cbv zeta.
  unfold response_of, console_of.
  rewrite (A_callback_exchanged CLIENT_ID CLIENT_SECRET APP_URL fetch req st
             ctx r data Hcode Hctx Hne Hf Hok Hj Hd).
  cbv zeta.
  set (st1 := {| storeTokens := _; console := _ |}).
  pose proof (registerMetadata_resolved fetch _ _ st1 r' Hm) as Hret.
  pose proof (registerMetadata_logs_failure fetch _ _ st1 r' Hm) as Hfail.
  pose proof (registerMetadata_logs_unparsable fetch _ _ st1 r' Hm) as Hbad.
  destruct (A.registerMetadata _ _ _ st1) as [[[]|e] st2];
    [|discriminate Hret].
  repeat split; assumption.
Qed.

Lemma callback_survives_registration_failure_witness :
  let fetch := network (Resolved granted) (Resolved bad_gateway) in
  (res_ok bad_gateway = false \/ res_json bad_gateway = None)
  /\ response_of (A.auth_callback (Some "cid") (Some "s3cret")
                    (Some "https://app.example") fetch
                    (callback_request "stores/abc123") st0)
     = Return (Send 200 A.installed_page).
Proof.
  cbv zeta. split; [left; reflexivity|].
  apply (callback_survives_registration_failure (Some "cid") (Some "s3cret")
           (Some "https://app.example")
           (network (Resolved granted) (Resolved bad_gateway))
           (callback_request "stores/abc123") st0 "stores/abc123"
           granted bad_gateway granted_data);
    first [ reflexivity | discriminate | left; reflexivity ].
Defined.

(** When the metadata request itself does not come back, variant A
    answers with the failure page although the token has been stored. *)
Lemma callback_registration_unreachable :
  let run := A.auth_callback (Some "cid") (Some "s3cret")
               (Some "https://app.example")
               (network (Resolved granted) (Rejected "ECONNRESET"))
               (callback_request "stores/abc123") st0 in
  response_of run = Return (Send 400 A.callback_failed)
  /\ store_of run !! "abc123" = Some (Some (JStr "T")).
Proof. cbv zeta. split; vm_compute; reflexivity. Qed.

(** C2, as index.js has it: in variant A, when the request carries a code
    and the context "stores/abc123" and the exchange succeeds with
    access token [T], the token is stored under "abc123" (whatever context
    the exchange returned), before the metadata is registered and the
    page sent; the answer is the confirmation page whenever the metadata
    request comes back.  Variant B stores nothing. *)
Theorem callback_stores_credential
    (CLIENT_ID CLIENT_SECRET APP_URL : option string)
    (fetch : fetch_init -> fetch_outcome) (req : request) (st : state)
    (r : fetch_response) (data T : json) :
  truthy (of_query (req_query req !! "code")) = true ->
  req_query req !! "context" = Some (QStr "stores/abc123") ->
  fetch (A.token_request CLIENT_ID CLIENT_SECRET APP_URL req) = Resolved r ->
  res_ok r = true -> res_json r = Some data ->
  prop data "access_token" = Some T ->
  let run_A := A.auth_callback CLIENT_ID CLIENT_SECRET APP_URL fetch req st in
  let run_B := B.auth_callback CLIENT_ID CLIENT_SECRET APP_URL fetch req st in
  store_of run_A = <["abc123" := Some T]> (storeTokens st)
  /\ (forall r', fetch (A.metadata_request "abc123" (Some T)) = Resolved r' ->
                 response_of run_A = Return (Send 200 A.installed_page))
  /\ store_of run_B = storeTokens st.
Proof.
  intros Hcode Hctx Hf Hok Hj HT. cbv zeta.
  assert (data <> JNull) as Hd by (intros ->; discriminate HT).
  assert ("stores/abc123" <> EmptyString) as Hne by discriminate.
  pose proof (A_callback_exchanged CLIENT_ID CLIENT_SECRET APP_URL fetch req st
                _ r data Hcode Hctx Hne Hf Hok Hj Hd) as E.
  cbv zeta in E. rewrite HT in E.
  change (JsString.replace "stores/" EmptyString "stores/abc123")
    with "abc123" in E.
  split; [|split].
  - unfold store_of. rewrite E.
    set (st1 := {| storeTokens := _; console := _ |}).
    pose proof (registerMetadata_store fetch "abc123" (Some T) st1) as Hs.
    destruct (A.registerMetadata _ _ _ st1) as [[[]|e] st2]; exact Hs.
  - intros r' Hm. unfold response_of. rewrite E.
    set (st1 := {| storeTokens := _; console := _ |}).
    pose proof (registerMetadata_resolved fetch _ _ st1 r' Hm) as Hret.
    destruct (A.registerMetadata _ _ _ st1) as [[[]|e] st2];
      [reflexivity | discriminate Hret].
  - apply B_callback_store.
Qed.

Lemma callback_stores_credential_witness :
  let fetch := network (Resolved granted) (Resolved created) in
  let run := A.auth_callback (Some "cid") (Some "s3cret")
               (Some "https://app.example") fetch
               (callback_request "stores/abc123") st0 in
  prop granted_data "access_token" = Some (JStr "T")
  /\ store_of run = <["abc123" := Some (JStr "T")]> ∅
  /\ response_of run = Return (Send 200 A.installed_page).
Proof.
  cbv zeta. split; [reflexivity|].
  pose proof (callback_stores_credential (Some "cid") (Some "s3cret")
                (Some "https://app.example")
                (network (Resolved granted) (Resolved created))
                (callback_request "stores/abc123") st0 granted granted_data
                (JStr "T")) as H.
  cbv zeta in H.
  destruct H as (Hstore & Hpage & _); [reflexivity .. |].
  split; [exact Hstore | apply (Hpage created); reflexivity].
Defined.

(** C2 as stated fails.  In variant B a callback whose exchange succeeded
    with token "T" and context "stores/abc123" returns the confirmation
    page with nothing stored.  In variant A the identifier comes from the
    context of the request, not from the one the exchange returned: with
    "stores/other" in the request the token is stored under "other". *)
Lemma callback_credential_not_stored :
  let fetch := network (Resolved granted) (Resolved created) in
  let run_B := B.auth_callback (Some "cid") (Some "s3cret")
                 (Some "https://app.example") fetch
                 (callback_request "stores/abc123") st0 in
  let run_A := A.auth_callback (Some "cid") (Some "s3cret")
                 (Some "https://app.example") fetch
                 (callback_request "stores/other") st0 in
  response_of run_B = Return (Send 200 (B.installed_page "abc123"))
  /\ store_of run_B !! "abc123" = None
  /\ response_of run_A = Return (Send 200 A.installed_page)
  /\ store_of run_A !! "abc123" = None
  /\ store_of run_A !! "other" = Some (Some (JStr "T")).
Proof. cbv zeta. repeat split; vm_compute; reflexivity. Qed.

(** *** Uninstall, on a store that holds credentials *)

Lemma uninstall_frame_witness :
  JStr "abc123" <> JStr "other"
  /\ store_of (A.uninstall (uninstall_request (JStr "abc123")) two_stores) !! "other"
     = Some (Some (JStr "U")).
Proof.
  split; [discriminate|].
  change (Some (Some (JStr "U"))) with (storeTokens two_stores !! "other").
  apply (uninstall_frame (uninstall_request (JStr "abc123")) two_stores
           (JStr "abc123") "other"); [reflexivity | discriminate].
Defined.

(** * Further properties of the handlers *)

(** ** Install: missing parameters, and what the target can contain *)

(** X1. A request to /api/install without a [context] or without a [scope]
    (or with an empty one) is answered 400 and nothing else happens: in
    variant A once the configuration is there, in variant B always. *)
Theorem install_missing_parameter
    (CLIENT_ID APP_URL : option string) (req : request) (st : state) :
  truthy (of_query (req_query req !! "context")) = false
  \/ truthy (of_query (req_query req !! "scope")) = false ->
  (env_truthy CLIENT_ID = true -> env_truthy APP_URL = true ->
   A.install CLIENT_ID APP_URL req st
   = (Return (Send 400 "Missing context or scope from BigCommerce."), st))
  /\ B.install CLIENT_ID APP_URL req st
     = (Return (Send 400 "Missing context or scope"), st).
Proof.
  intros H.
  assert (negb (truthy (of_query (req_query req !! "context")))
          || negb (truthy (of_query (req_query req !! "scope"))) = true) as E.
  { destruct H as [-> | ->]; [reflexivity | apply orb_true_r]. }
  split.
  - intros Hc Hu. unfold A.install. rewrite Hc, Hu, E. reflexivity.
  - unfold B.install. rewrite E. reflexivity.
Qed.

Lemma install_missing_parameter_witness :
  let req := {| req_method := "GET"; req_headers := [];
                req_query := {[ "context" := QStr "stores/abc123";
                                "scope" := QStr EmptyString ]};
                req_body := None |} in
  A.install (Some "cid") (Some "https://app.example") req st0
  = (Return (Send 400 "Missing context or scope from BigCommerce."), st0)
  /\ B.install None None req st0
     = (Return (Send 400 "Missing context or scope"), st0).
Proof.
  cbv zeta. split.
  - apply install_missing_parameter; [right; reflexivity | reflexivity ..].
  - apply install_missing_parameter. right; reflexivity.
Defined.

Lemma occurrences_app (c : ascii) (s t : string) :
  occurrences c (s +:+ t) = occurrences c s + occurrences c t.
Proof.
  induction s as [|a s IH]; [reflexivity|].
  change (String a s +:+ t) with (String a (s +:+ t)).
  cbn [occurrences]. rewrite IH. lia.
Qed.

Lemma hex_digit (n : nat) :
  JsString.includes (String (JsString.hex n) EmptyString) "0123456789ABCDEF" = true.
Proof. do 16 (destruct n as [|n]; [reflexivity|]). reflexivity. Qed.

Lemma occurrences_encoded (c : ascii) (s : string) :
  uri_safe c = false -> occurrences c (JsString.encodeURIComponent s) = 0.
Proof.
  intros Hc. induction s as [|a s IH]; [reflexivity|].
  cbn [JsString.encodeURIComponent]. rewrite occurrences_app, IH, Nat.add_0_r.
  assert (forall b, uri_safe b = true -> Ascii.eqb b c = false) as Hne.
  { intros b Hb. destruct (Ascii.eqb_spec b c) as [->|]; [congruence | reflexivity]. }
  destruct (JsString.unescaped a) eqn:Ha.
  - cbn [occurrences]. rewrite Hne; [reflexivity|].
    unfold uri_safe. rewrite Ha. reflexivity.
  - unfold JsString.escape. cbn [occurrences].
    rewrite !Hne; [reflexivity | unfold uri_safe; rewrite hex_digit; apply orb_true_r ..
                  | reflexivity].
Qed.

(** X2. The parameters cannot add to the query of the redirect target.  In
    variant B, where every value is URL-encoded, the target always has
    exactly one "?", five "=" and four "&"; in variant A the same holds up
    to what the client identifier, written as it is, brings in. *)
Theorem install_target_parameters
    (CLIENT_ID APP_URL : option string) (req : request) (st : state)
    (target : string) :
  (response_of (B.install CLIENT_ID APP_URL req st)
     = Return (Redirect 302 target) ->
   occurrences "?" target = 1 /\ occurrences "=" target = 5
   /\ occurrences "&" target = 4)
  /\ (response_of (A.install CLIENT_ID APP_URL req st)
        = Return (Redirect 302 target) ->
      let id := env_string CLIENT_ID in
      occurrences "?" target = 1 + occurrences "?" id
      /\ occurrences "=" target = 5 + occurrences "=" id
      /\ occurrences "&" target = 4 + occurrences "&" id).
Proof.
  split.
  - unfold B.install, response_of.
    destruct (negb _ || negb _); cbn; intros E; [discriminate E|].
    injection E as <-. unfold B.authorizeUrl.
    rewrite !occurrences_app, !occurrences_encoded by reflexivity.
    repeat split; reflexivity.
  - unfold A.install, response_of.
    destruct (negb _ || negb _); cbn; intros E; [discriminate E|].
    destruct (negb _ || negb _); cbn in E; [discriminate E|].
    injection E as <-. cbv zeta. unfold A.authUrl.
    rewrite !occurrences_app, !occurrences_encoded by reflexivity.
    cbn [occurrences Ascii.eqb Bool.eqb]. repeat split; lia.
Qed.

Lemma install_target_parameters_witness :
  let req := {| req_method := "GET"; req_headers := [];
                req_query := {[ "context" := QStr "stores/abc&x=1";
                                "scope" := QStr "a&b=c?d" ]};
                req_body := None |} in
  let target :=
    "https://login.bigcommerce.com/oauth2/authorize?client_id=cid&scope=a%26b%3Dc%3Fd&context=stores%2Fabc%26x%3D1&redirect_uri=https%3A%2F%2Fapp.example%2Fapi%2Fauth%2Fcallback&response_type=code" in
  response_of (B.install (Some "cid") (Some "https://app.example") req st0)
    = Return (Redirect 302 target)
  /\ occurrences "&" target = 4.
Proof.
  cbv zeta. split; [reflexivity|].
  apply (proj1 (install_target_parameters (Some "cid") (Some "https://app.example")
                  {| req_method := "GET"; req_headers := [];
                     req_query := {[ "context" := QStr "stores/abc&x=1";
                                     "scope" := QStr "a&b=c?d" ]};
                     req_body := None |} st0 _)).
  reflexivity.
Defined.

(** ** The callback: every way out *)

(** X3. A callback without a [code] or without a [context] is refused with a
    400 before anything is sent: whatever the network is, it is not
    consulted, and the store stays as it was. *)
Theorem callback_missing_parameter
    (CLIENT_ID CLIENT_SECRET APP_URL : option string)
    (fetch fetch' : fetch_init -> fetch_outcome) (req : request) (st : state) :
  let callback_A := A.auth_callback CLIENT_ID CLIENT_SECRET APP_URL in
  let callback_B := B.auth_callback CLIENT_ID CLIENT_SECRET APP_URL in
  truthy (of_query (req_query req !! "code")) = false
  \/ truthy (of_query (req_query req !! "context")) = false ->
  response_of (callback_A fetch req st) = Return (Send 400 A.callback_failed)
  /\ store_of (callback_A fetch req st) = storeTokens st
  /\ callback_A fetch req st = callback_A fetch' req st
  /\ response_of (callback_B fetch req st)
     = Return (Send 400 "OAuth callback failed: missing code or context")
  /\ store_of (callback_B fetch req st) = storeTokens st
  /\ callback_B fetch req st = callback_B fetch' req st.
Proof.
  intros callback_A callback_B H. subst callback_A callback_B.
  assert (negb (truthy (of_query (req_query req !! "code")))
          || negb (truthy (of_query (req_query req !! "context"))) = true) as E.
  { destruct H as [-> | ->]; [reflexivity | apply orb_true_r]. }
  unfold A.auth_callback, B.auth_callback. unfold_monad. cbn [fst snd].
  rewrite E. repeat split.
Qed.

Lemma callback_missing_parameter_witness :
  let req := {| req_method := "GET"; req_headers := [];
                req_query := {[ "context" := QStr "stores/abc123" ]};
                req_body := None |} in
  response_of (A.auth_callback (Some "cid") (Some "s3cret")
                 (Some "https://app.example")
                 (network (Resolved granted) (Resolved created)) req two_stores)
  = Return (Send 400 A.callback_failed).
Proof.
  cbv zeta.
  apply (callback_missing_parameter (Some "cid") (Some "s3cret")
           (Some "https://app.example")
           (network (Resolved granted) (Resolved created))
           (network (Resolved granted) (Resolved created))).
  left; reflexivity.
Defined.

(** X4. In variant A a [context] that is no string (the key was repeated or
    bracketed in the query) has no [replace]: the callback is refused with
    the 400 page before anything is sent, and the store stays as it was. *)
Theorem callback_context_not_a_string
    (CLIENT_ID CLIENT_SECRET APP_URL : option string)
    (fetch fetch' : fetch_init -> fetch_outcome) (req : request) (st : state)
    (q : qval) :
  let callback_A := A.auth_callback CLIENT_ID CLIENT_SECRET APP_URL in
  req_query req !! "context" = Some q ->
  (forall s, q <> QStr s) ->
  response_of (callback_A fetch req st) = Return (Send 400 A.callback_failed)
  /\ store_of (callback_A fetch req st) = storeTokens st
  /\ callback_A fetch req st = callback_A fetch' req st.
Proof.
  intros callback_A Hq Hs. subst callback_A.
  unfold A.auth_callback, A.storeHash, call_replace. unfold_monad.
  rewrite Hq. cbn [fst snd].
  destruct (negb _ || negb _); [repeat split|].
  destruct q as [s | items | fields]; [destruct (Hs s); reflexivity | ..];
    repeat split.
Qed.

Lemma callback_context_not_a_string_witness :
  let req := {| req_method := "GET"; req_headers := [];
                req_query := {[ "code" := QStr "c0de";
                                "context" := QArr [QStr "stores/abc123";
                                                   QStr "stores/other"] ]};
                req_body := None |} in
  response_of (A.auth_callback (Some "cid") (Some "s3cret")
                 (Some "https://app.example")
                 (network (Resolved granted) (Resolved created)) req two_stores)
  = Return (Send 400 A.callback_failed).
Proof.
  cbv zeta.
  apply (callback_context_not_a_string (Some "cid") (Some "s3cret")
           (Some "https://app.example")
           (network (Resolved granted) (Resolved created))
           (network (Resolved granted) (Resolved created)) _ two_stores
           (QArr [QStr "stores/abc123"; QStr "stores/other"]));
    [reflexivity | discriminate].
Defined.

(** X5. When the token exchange itself does not come back (the fetch is
    rejected), variant A answers with its 400 page and variant B with a
    500 page of its own; the store stays as it was. *)
Theorem callback_exchange_unreachable
    (CLIENT_ID CLIENT_SECRET APP_URL : option string)
    (fetch : fetch_init -> fetch_outcome) (req : request) (st : state)
    (reason : string) :
  truthy (of_query (req_query req !! "code")) = true ->
  truthy (of_query (req_query req !! "context")) = true ->
  fetch (A.token_request CLIENT_ID CLIENT_SECRET APP_URL req) = Rejected reason ->
  let run_A := A.auth_callback CLIENT_ID CLIENT_SECRET APP_URL fetch req st in
  let run_B := B.auth_callback CLIENT_ID CLIENT_SECRET APP_URL fetch req st in
  response_of run_A = Return (Send 400 A.callback_failed)
  /\ store_of run_A = storeTokens st
  /\ response_of run_B = Return (Send 500 "OAuth callback failed on server.")
  /\ store_of run_B = storeTokens st.
Proof.
  intros Hcode Hctx Hf. cbv zeta.
  pose proof (token_request_same CLIENT_ID CLIENT_SECRET APP_URL req) as Hsame.
  unfold A.auth_callback, B.auth_callback, A.storeHash, call_replace, await.
  unfold_monad. rewrite Hsame, Hcode, Hctx, Hf. cbn [negb orb fst snd].
  destruct (of_query (req_query req !! "context")) as [[| | | s | |]|];
    repeat split.
Qed.

Lemma callback_exchange_unreachable_witness :
  let fetch := network (Rejected "ETIMEDOUT") (Resolved created) in
  response_of (A.auth_callback (Some "cid") (Some "s3cret")
                 (Some "https://app.example") fetch
                 (callback_request "stores/abc123") st0)
  = Return (Send 400 A.callback_failed)
  /\ response_of (B.auth_callback (Some "cid") (Some "s3cret")
                    (Some "https://app.example") fetch
                    (callback_request "stores/abc123") st0)
     = Return (Send 500 "OAuth callback failed on server.").
Proof.
  cbv zeta.
  pose proof (callback_exchange_unreachable (Some "cid") (Some "s3cret")
                (Some "https://app.example")
                (network (Rejected "ETIMEDOUT") (Resolved created))
                (callback_request "stores/abc123") st0 "ETIMEDOUT") as H.
  cbv zeta in H.
  destruct H as (HA & _ & HB & _); [reflexivity ..|].
  split; [exact HA | exact HB].
Defined.

Lemma registerMetadata_rejected
    (fetch : fetch_init -> fetch_outcome) (storeHash : string)
    (accessToken : jsval) (st : state) (reason : string) :
  fetch (A.metadata_request storeHash accessToken) = Rejected reason ->
  fst (A.registerMetadata fetch storeHash accessToken st)
  = Throw (FetchError reason).
Proof.
  intros E. unfold A.registerMetadata, await. unfold_monad. rewrite E.
  reflexivity.
Qed.

(** X6. What [registerMetadata] does to its caller is settled by the fetch
    alone: it returns normally whenever the request comes back, whatever
    the status and the body, and throws exactly when the fetch is
    rejected.  It never writes to the store. *)
Theorem registerMetadata_outcome
    (fetch : fetch_init -> fetch_outcome) (storeHash : string)
    (accessToken : jsval) (st : state) :
  let run := A.registerMetadata fetch storeHash accessToken st in
  fst run = match fetch (A.metadata_request storeHash accessToken) with
            | Resolved _ => Return tt
            | Rejected reason => Throw (FetchError reason)
            end
  /\ storeTokens (snd run) = storeTokens st.
Proof.
  cbv zeta. split; [|apply registerMetadata_store].
  destruct (fetch (A.metadata_request storeHash accessToken)) as [r'|reason] eqn:E.
  - apply (registerMetadata_resolved fetch _ _ st r' E).
  - apply (registerMetadata_rejected fetch _ _ st reason E).
Qed.

(** The callback of variant A either leaves the store alone or sets the
    one entry named by its [context]. *)
Lemma A_callback_store_cases
    (CLIENT_ID CLIENT_SECRET APP_URL : option string)
    (fetch : fetch_init -> fetch_outcome) (req : request) (st : state) :
  let run := A.auth_callback CLIENT_ID CLIENT_SECRET APP_URL fetch req st in
  store_of run = storeTokens st
  \/ exists ctx token,
       req_query req !! "context" = Some (QStr ctx)
       /\ store_of run
          = <[JsString.replace "stores/" EmptyString ctx := token]> (storeTokens st).
Proof.
  cbv zeta.
  unfold A.auth_callback, A.storeHash, call_replace, await, await_json, read.
  unfold_monad.
  destruct (negb _ || negb _); [left; reflexivity|].
  destruct (req_query req !! "context") as [[ctx | items | fields]|];
    try (left; reflexivity).
  cbn [of_query fmap option_fmap option_map json_of_qval fst snd].
  destruct (fetch _) as [r|reason]; [|left; reflexivity].
  cbn [fst snd]. destruct (res_json r) as [data|]; [|left; reflexivity].
  cbn [fst snd]. destruct (res_ok r); cbn [negb].
  - destruct data; try (left; reflexivity);
      right; eexists ctx, _; (split; [reflexivity|]);
      cbn [fst snd storeTokens console];
      match goal with
      | |- context [A.registerMetadata ?f ?h ?t ?s] =>
          pose proof (registerMetadata_store f h t s) as Hs;
          destruct (A.registerMetadata f h t s) as [[[]|err] st2]; exact Hs
      end.
  - destruct data; unfold new_Error; unfold_monad;
      try destruct (printable_val _); left; reflexivity.
Qed.

(** X7. The callback of variant A touches no credential but the one of the
    store it is called for: every other entry is what it was. *)
Theorem callback_frame
    (CLIENT_ID CLIENT_SECRET APP_URL : option string)
    (fetch : fetch_init -> fetch_outcome) (req : request) (st : state)
    (k : string) :
  (forall ctx, req_query req !! "context" = Some (QStr ctx) ->
               k <> JsString.replace "stores/" EmptyString ctx) ->
  store_of (A.auth_callback CLIENT_ID CLIENT_SECRET APP_URL fetch req st) !! k
  = storeTokens st !! k.
Proof.
  intros Hk.
  destruct (A_callback_store_cases CLIENT_ID CLIENT_SECRET APP_URL fetch req st)
    as [-> | (ctx & token & Hctx & ->)]; [reflexivity|].
  apply lookup_insert_ne. intros E. apply (Hk ctx Hctx). symmetry. exact E.
Qed.

Lemma callback_frame_witness :
  store_of (A.auth_callback (Some "cid") (Some "s3cret")
              (Some "https://app.example")
              (network (Resolved granted) (Resolved created))
              (callback_request "stores/abc123") two_stores) !! "other"
  = Some (Some (JStr "U")).
Proof.
  change (Some (Some (JStr "U"))) with (storeTokens two_stores !! "other").
  apply callback_frame.
  intros ctx Hctx. vm_compute in Hctx. injection Hctx as <-. discriminate.
Defined.

(** ** The callback of variant A after a successful exchange *)

Lemma A_callback_store_exchanged
    (CLIENT_ID CLIENT_SECRET APP_URL : option string)
    (fetch : fetch_init -> fetch_outcome) (req : request) (st : state)
    (ctx : string) (r : fetch_response) (data : json) :
  truthy (of_query (req_query req !! "code")) = true ->
  req_query req !! "context" = Some (QStr ctx) -> ctx <> EmptyString ->
  fetch (A.token_request CLIENT_ID CLIENT_SECRET APP_URL req) = Resolved r ->
  res_ok r = true -> res_json r = Some data -> data <> JNull ->
  store_of (A.auth_callback CLIENT_ID CLIENT_SECRET APP_URL fetch req st)
  = <[JsString.replace "stores/" EmptyString ctx := prop data "access_token"]>
      (storeTokens st).
Proof.
  intros Hcode Hctx Hne Hf Hok Hj Hd. unfold store_of.
  rewrite (A_callback_exchanged CLIENT_ID CLIENT_SECRET APP_URL fetch req st
             ctx r data Hcode Hctx Hne Hf Hok Hj Hd).
  cbv zeta. set (st1 := {| storeTokens := _; console := _ |}).
  pose proof (registerMetadata_store fetch
                (JsString.replace "stores/" EmptyString ctx)
                (prop data "access_token") st1) as Hs.
  destruct (A.registerMetadata _ _ _ st1) as [[[]|err] st2]; exact Hs.
Qed.

(** X8. When the metadata request does not come back (the fetch is rejected),
    the callback answers with its 400 failure page although the exchange
    succeeded, and the token it obtained stays in the store. *)
Theorem callback_registration_rejected
    (CLIENT_ID CLIENT_SECRET APP_URL : option string)
    (fetch : fetch_init -> fetch_outcome) (req : request) (st : state)
    (ctx reason : string) (r : fetch_response) (data : json) :
  truthy (of_query (req_query req !! "code")) = true ->
  req_query req !! "context" = Some (QStr ctx) -> ctx <> EmptyString ->
  fetch (A.token_request CLIENT_ID CLIENT_SECRET APP_URL req) = Resolved r ->
  res_ok r = true -> res_json r = Some data -> data <> JNull ->
  let hash := JsString.replace "stores/" EmptyString ctx in
  let token := prop data "access_token" in
  fetch (A.metadata_request hash token) = Rejected reason ->
  let run := A.auth_callback CLIENT_ID CLIENT_SECRET APP_URL fetch req st in
  response_of run = Return (Send 400 A.callback_failed)
  /\ store_of run !! hash = Some token.
Proof.
  intros Hcode Hctx Hne Hf Hok Hj Hd hash token Hm. cbv zeta. split.
  - unfold response_of.
    rewrite (A_callback_exchanged CLIENT_ID CLIENT_SECRET APP_URL fetch req st
               ctx r data Hcode Hctx Hne Hf Hok Hj Hd).
    cbv zeta. set (st1 := {| storeTokens := _; console := _ |}).
    pose proof (registerMetadata_rejected fetch hash token st1 reason Hm) as Ho.
    fold hash token.
    destruct (A.registerMetadata fetch hash token st1) as [[[]|err] st2];
      [discriminate Ho | reflexivity].
  - rewrite (A_callback_store_exchanged CLIENT_ID CLIENT_SECRET APP_URL fetch
               req st ctx r data Hcode Hctx Hne Hf Hok Hj Hd).
    apply lookup_insert_eq.
Qed.

Lemma callback_registration_rejected_witness :
  let run := A.auth_callback (Some "cid") (Some "s3cret")
               (Some "https://app.example")
               (network (Resolved granted) (Rejected "ECONNRESET"))
               (callback_request "stores/abc123") st0 in
  response_of run = Return (Send 400 A.callback_failed)
  /\ store_of run !! "abc123" = Some (Some (JStr "T")).
Proof.
  cbv zeta.
  apply (callback_registration_rejected (Some "cid") (Some "s3cret")
           (Some "https://app.example")
           (network (Resolved granted) (Rejected "ECONNRESET"))
           (callback_request "stores/abc123") st0 "stores/abc123" "ECONNRESET"
           granted granted_data);
    first [ reflexivity | discriminate ].
Defined.

(** X9. An exchange that succeeds with a body that has no [access_token]
    still counts as an installation: the store gets an entry for the
    identifier whose token is [undefined], and the confirmation page is
    sent. *)
Theorem callback_without_token
    (CLIENT_ID CLIENT_SECRET APP_URL : option string)
    (fetch : fetch_init -> fetch_outcome) (req : request) (st : state)
    (ctx : string) (r r' : fetch_response) (data : json) :
  truthy (of_query (req_query req !! "code")) = true ->
  req_query req !! "context" = Some (QStr ctx) -> ctx <> EmptyString ->
  fetch (A.token_request CLIENT_ID CLIENT_SECRET APP_URL req) = Resolved r ->
  res_ok r = true -> res_json r = Some data -> data <> JNull ->
  prop data "access_token" = None ->
  let hash := JsString.replace "stores/" EmptyString ctx in
  fetch (A.metadata_request hash None) = Resolved r' ->
  let run := A.auth_callback CLIENT_ID CLIENT_SECRET APP_URL fetch req st in
  response_of run = Return (Send 200 A.installed_page)
  /\ store_of run !! hash = Some None.
Proof.
  intros Hcode Hctx Hne Hf Hok Hj Hd Hnone hash Hm. cbv zeta. split.
  - unfold response_of.
    rewrite (A_callback_exchanged CLIENT_ID CLIENT_SECRET APP_URL fetch req st
               ctx r data Hcode Hctx Hne Hf Hok Hj Hd).
    cbv zeta. rewrite Hnone. set (st1 := {| storeTokens := _; console := _ |}).
    pose proof (registerMetadata_resolved fetch _ _ st1 r' Hm) as Hret.
    fold hash.
    destruct (A.registerMetadata fetch hash None st1) as [[[]|err] st2];
      [reflexivity | discriminate Hret].
  - rewrite (A_callback_store_exchanged CLIENT_ID CLIENT_SECRET APP_URL fetch
               req st ctx r data Hcode Hctx Hne Hf Hok Hj Hd), Hnone.
    apply lookup_insert_eq.
Qed.

Lemma callback_without_token_witness :
  let run := A.auth_callback (Some "cid") (Some "s3cret")
               (Some "https://app.example")
               (network (Resolved created) (Resolved bad_gateway))
               (callback_request "stores/abc123") st0 in
  response_of run = Return (Send 200 A.installed_page)
  /\ store_of run !! "abc123" = Some None.
Proof.
  cbv zeta.
  apply (callback_without_token (Some "cid") (Some "s3cret")
           (Some "https://app.example")
           (network (Resolved created) (Resolved bad_gateway))
           (callback_request "stores/abc123") st0 "stores/abc123"
           created bad_gateway (JObj [("data", JArr [])]));
    first [ reflexivity | discriminate ].
Defined.

(** X10. Installing a store again overwrites its token: after two callbacks
    for the same context the store holds the token of the second. *)
Theorem callback_last_write_wins
    (CLIENT_ID CLIENT_SECRET APP_URL : option string)
    (fetch : fetch_init -> fetch_outcome) (req1 req2 : request) (st : state)
    (ctx : string) (r1 r2 : fetch_response) (data1 data2 : json) :
  truthy (of_query (req_query req1 !! "code")) = true ->
  truthy (of_query (req_query req2 !! "code")) = true ->
  req_query req1 !! "context" = Some (QStr ctx) ->
  req_query req2 !! "context" = Some (QStr ctx) -> ctx <> EmptyString ->
  fetch (A.token_request CLIENT_ID CLIENT_SECRET APP_URL req1) = Resolved r1 ->
  fetch (A.token_request CLIENT_ID CLIENT_SECRET APP_URL req2) = Resolved r2 ->
  res_ok r1 = true -> res_json r1 = Some data1 -> data1 <> JNull ->
  res_ok r2 = true -> res_json r2 = Some data2 -> data2 <> JNull ->
  let callback := A.auth_callback CLIENT_ID CLIENT_SECRET APP_URL fetch in
  store_of (callback req2 (snd (callback req1 st)))
  = <[JsString.replace "stores/" EmptyString ctx := prop data2 "access_token"]>
      (storeTokens st).
Proof.
  intros Hc1 Hc2 Hx1 Hx2 Hne Hf1 Hf2 Hok1 Hj1 Hd1 Hok2 Hj2 Hd2. cbv zeta.
  rewrite (A_callback_store_exchanged CLIENT_ID CLIENT_SECRET APP_URL fetch
             req2 _ ctx r2 data2 Hc2 Hx2 Hne Hf2 Hok2 Hj2 Hd2).
  fold (store_of (A.auth_callback CLIENT_ID CLIENT_SECRET APP_URL fetch req1 st)).
  rewrite (A_callback_store_exchanged CLIENT_ID CLIENT_SECRET APP_URL fetch
             req1 st ctx r1 data1 Hc1 Hx1 Hne Hf1 Hok1 Hj1 Hd1).
  apply insert_insert_eq.
Qed.

Lemma callback_last_write_wins_witness :
  let callback := A.auth_callback (Some "cid") (Some "s3cret")
                    (Some "https://app.example") regranting_network in
  store_of (callback second_callback_request
              (snd (callback (callback_request "stores/abc123") st0)))
  = <["abc123" := Some (JStr "T2")]> ∅.
Proof.
  cbv zeta.
  apply (callback_last_write_wins (Some "cid") (Some "s3cret")
           (Some "https://app.example") regranting_network
           (callback_request "stores/abc123") second_callback_request st0
           "stores/abc123"
           {| res_status := 200;
              res_json := Some (JObj [("access_token", JStr "T")]) |}
           {| res_status := 200;
              res_json := Some (JObj [("access_token", JStr "T2")]) |}
           (JObj [("access_token", JStr "T")])
           (JObj [("access_token", JStr "T2")]));
    first [ reflexivity | discriminate ].
Defined.

(** ** Uninstall *)

(** X11. An uninstall request whose [store_hash] is a non-empty string removes
    that store's credential; one whose [store_hash] is missing, falsy or
    no string removes nothing, and when it is missing or falsy nothing is
    written to the console either. *)
Theorem uninstall_removes_credential (req : request) (st : state) :
  let store_hash := prop_opt (req_body req) "store_hash" in
  (forall h, store_hash = Some (JStr h) -> h <> EmptyString ->
             store_of (A.uninstall req st) = delete h (storeTokens st)
             /\ store_of (A.uninstall req st) !! h = None)
  /\ ((forall h, store_hash <> Some (JStr h)) ->
      store_of (A.uninstall req st) = storeTokens st)
  /\ (truthy store_hash = false ->
      A.uninstall req st = (Return (SendJson 200 success), st)).
Proof.
  cbv zeta. split; [|split].
  - intros h Hh Hne. rewrite A_uninstall_store, Hh.
    destruct h as [|c h]; [congruence|].
    split; [reflexivity | apply lookup_delete_eq].
  - intros Hno. rewrite A_uninstall_store.
    destruct (prop_opt (req_body req) "store_hash") as [[| | | [|c s] | |]|];
      try reflexivity.
    destruct (Hno (String c s)). reflexivity.
  - intros Hf. unfold A.uninstall. unfold_monad. rewrite Hf.
    destruct st; reflexivity.
Qed.

Lemma uninstall_removes_credential_witness :
  store_of (A.uninstall (uninstall_request (JStr "abc123")) two_stores)
  = {[ "other" := Some (JStr "U") ]}
  /\ store_of (A.uninstall (uninstall_request (JNum 123 0)) two_stores)
     = storeTokens two_stores.
Proof.
  pose proof (uninstall_removes_credential
                (uninstall_request (JStr "abc123")) two_stores) as H1.
  pose proof (uninstall_removes_credential
                (uninstall_request (JNum 123 0)) two_stores) as H2.
  cbv zeta in H1, H2.
  destruct H1 as (H1 & _). destruct H2 as (_ & H2 & _).
  split.
  - destruct (H1 "abc123") as [E _]; [reflexivity | discriminate |].
    rewrite E. vm_compute. reflexivity.
  - apply H2. intros h. discriminate.
Defined.

(** X12. Install, then uninstall: after a callback that stored a token for a
    store, an uninstall request naming that store leaves the store map
    with no entry for it; if there was none before the callback, the map
    is back to what it was. *)
Theorem install_then_uninstall
    (CLIENT_ID CLIENT_SECRET APP_URL : option string)
    (fetch : fetch_init -> fetch_outcome) (req bye : request) (st : state)
    (ctx : string) (r : fetch_response) (data : json) :
  truthy (of_query (req_query req !! "code")) = true ->
  req_query req !! "context" = Some (QStr ctx) -> ctx <> EmptyString ->
  fetch (A.token_request CLIENT_ID CLIENT_SECRET APP_URL req) = Resolved r ->
  res_ok r = true -> res_json r = Some data -> data <> JNull ->
  let hash := JsString.replace "stores/" EmptyString ctx in
  hash <> EmptyString ->
  prop_opt (req_body bye) "store_hash" = Some (JStr hash) ->
  let installed :=
    snd (A.auth_callback CLIENT_ID CLIENT_SECRET APP_URL fetch req st) in
  store_of (A.uninstall bye installed) = delete hash (storeTokens st)
  /\ (storeTokens st !! hash = None ->
      store_of (A.uninstall bye installed) = storeTokens st).
Proof.
  intros Hcode Hctx Hne Hf Hok Hj Hd hash Hh Hbye. cbv zeta.
  assert (store_of (A.uninstall bye
            (snd (A.auth_callback CLIENT_ID CLIENT_SECRET APP_URL fetch req st)))
          = delete hash (storeTokens st)) as E.
  { rewrite A_uninstall_store, Hbye.
    fold (store_of (A.auth_callback CLIENT_ID CLIENT_SECRET APP_URL fetch req st)).
    rewrite (A_callback_store_exchanged CLIENT_ID CLIENT_SECRET APP_URL fetch
               req st ctx r data Hcode Hctx Hne Hf Hok Hj Hd).
    fold hash. destruct hash as [|c h]; [congruence|].
    apply delete_insert_eq. }
  split; [exact E|].
  intros Hfresh. rewrite E. apply delete_id. exact Hfresh.
Qed.

Lemma install_then_uninstall_witness :
  let installed :=
    snd (A.auth_callback (Some "cid") (Some "s3cret")
           (Some "https://app.example")
           (network (Resolved granted) (Resolved created))
           (callback_request "stores/abc123") st0) in
  storeTokens installed !! "abc123" = Some (Some (JStr "T"))
  /\ store_of (A.uninstall (uninstall_request (JStr "abc123")) installed) = ∅.
Proof.
  cbv zeta. split; [vm_compute; reflexivity|].
  refine (proj2 (install_then_uninstall (Some "cid") (Some "s3cret")
                   (Some "https://app.example")
                   (network (Resolved granted) (Resolved created))
                   (callback_request "stores/abc123")
                   (uninstall_request (JStr "abc123")) st0 "stores/abc123"
                   granted granted_data _ _ _ _ _ _ _ _ _) _);
    first [ reflexivity | discriminate ].
Defined.

(** ** What the callback can answer *)

(** X13. The callback of variant A never throws and has two answers only: the
    confirmation page with 200, or the one failure page with 400.  Nothing
    of the request, the configuration or the network's replies is in
    either. *)
Theorem callback_A_answers
    (CLIENT_ID CLIENT_SECRET APP_URL : option string)
    (fetch : fetch_init -> fetch_outcome) (req : request) (st : state) :
  let run := A.auth_callback CLIENT_ID CLIENT_SECRET APP_URL fetch req st in
  response_of run = Return (Send 200 A.installed_page)
  \/ response_of run = Return (Send 400 A.callback_failed).
Proof.
  cbv zeta.
  unfold A.auth_callback, A.storeHash, call_replace, await, await_json, read.
  unfold_monad.
  destruct (negb _ || negb _); [right; reflexivity|].
  destruct (of_query (req_query req !! "context")) as [[| | | s | |]|];
    try (right; reflexivity).
  destruct (fetch _) as [r|reason]; [|right; reflexivity].
  cbn [fst snd]. destruct (res_json r) as [data|]; [|right; reflexivity].
  cbn [fst snd]. destruct (res_ok r); cbn [negb].
  - destruct data; try (right; reflexivity);
      cbn [fst snd];
      match goal with
      | |- context [A.registerMetadata ?f ?h ?t ?s] =>
          destruct (A.registerMetadata f h t s) as [[[]|err] st2]
      end; first [ left; reflexivity | right; reflexivity ].
  - destruct data; unfold new_Error; unfold_monad;
      try destruct (printable_val _); right; reflexivity.
Qed.

(** X14. The callback of variant B never throws either; it answers with one of
    three fixed failure pages or with the confirmation page made for some
    store name. *)
Theorem callback_B_answers
    (CLIENT_ID CLIENT_SECRET APP_URL : option string)
    (fetch : fetch_init -> fetch_outcome) (req : request) (st : state) :
  let run := B.auth_callback CLIENT_ID CLIENT_SECRET APP_URL fetch req st in
  response_of run
    = Return (Send 400 "OAuth callback failed: missing code or context")
  \/ response_of run = Return (Send 500 B.exchange_failed)
  \/ response_of run = Return (Send 500 "OAuth callback failed on server.")
  \/ exists store, response_of run = Return (Send 200 (B.installed_page store)).
Proof.
  cbv zeta.
  unfold B.auth_callback, B.storeHash, call_replace, await, await_json, read.
  unfold_monad.
  destruct (negb _ || negb _); [left; reflexivity|].
  destruct (fetch _) as [r|reason]; [|right; right; left; reflexivity].
  cbn [fst snd].
  destruct (res_json r) as [data|]; cbn [fst snd];
    destruct (res_ok r); cbn [negb];
    try (right; left; reflexivity).
  - destruct (or_else _ _) as [[| | | s | |]|];
      try (right; right; left; reflexivity).
    destruct data; cbn [fst snd];
      first [ right; right; left; reflexivity
            | right; right; right; eexists; reflexivity ].
  - destruct (or_else _ _) as [[| | | s | |]|];
      first [ right; right; left; reflexivity
            | right; right; right; eexists; reflexivity ].
Qed.

(** X15. After a successful exchange variant B shows the store identifier in
    its confirmation page as it is, with no escaping, or "unknown" when
    the identifier is empty.  A body of the exchange that is not JSON
    counts as the empty object. *)
Theorem callback_B_names_store
    (CLIENT_ID CLIENT_SECRET APP_URL : option string)
    (fetch : fetch_init -> fetch_outcome) (req : request) (st : state)
    (r : fetch_response) (s : string) :
  truthy (of_query (req_query req !! "code")) = true ->
  truthy (of_query (req_query req !! "context")) = true ->
  fetch (B.token_request CLIENT_ID CLIENT_SECRET APP_URL req) = Resolved r ->
  res_ok r = true ->
  let data := default (JObj []) (res_json r) in
  data <> JNull ->
  or_else (prop_opt (Some data) "context")
          (or_else (of_query (req_query req !! "context")) (str EmptyString))
  = str s ->
  let hash := JsString.trim (JsString.replace "stores/" EmptyString s) in
  let shown := match hash with EmptyString => "unknown" | _ => hash end in
  response_of (B.auth_callback CLIENT_ID CLIENT_SECRET APP_URL fetch req st)
    = Return (Send 200 (B.installed_page shown))
  /\ JsString.includes shown (B.installed_page shown) = true.
Proof.
  intros Hcode Hctx Hf Hok data Hd Hs hash shown. split.
  - unfold B.auth_callback, B.storeHash, call_replace, await, await_json.
    unfold_monad. rewrite Hcode, Hctx, Hf. cbn [negb orb fst snd].
    subst data. rewrite Hok.
    destruct (res_json r) as [j|];
      [ change (default (JObj []) (Some j)) with j in *
      | change (default (JObj []) None) with (JObj []) in * ];
      cbn [negb fst snd];
      rewrite Hs; cbn [fst snd str];
      rewrite (read_object _ _ Hd); unfold_monad; cbn [fst snd];
      subst shown hash;
      destruct (JsString.trim _); reflexivity.
  - unfold B.installed_page. find_part.
Qed.

Lemma callback_B_names_store_witness :
  response_of (B.auth_callback (Some "cid") (Some "s3cret")
                 (Some "https://app.example")
                 (network (Resolved created) (Resolved created))
                 (callback_request "stores/<b>abc</b>") st0)
  = Return (Send 200 (B.installed_page "<b>abc</b>")).
Proof.
  apply (callback_B_names_store (Some "cid") (Some "s3cret")
           (Some "https://app.example")
           (network (Resolved created) (Resolved created))
           (callback_request "stores/<b>abc</b>") st0 created
           "stores/<b>abc</b>");
    first [ reflexivity | discriminate ].
Defined.

(** ** Who writes to the store *)

(** X16. Only the callback and the uninstall handler of variant A can change
    the store: the install, load and root handlers of variant A, and
    every handler of variant B, leave it as they found it. *)
Theorem store_left_alone
    (CLIENT_ID CLIENT_SECRET APP_URL : option string)
    (fetch : fetch_init -> fetch_outcome) (req : request) (st : state) :
  store_of (A.install CLIENT_ID APP_URL req st) = storeTokens st
  /\ store_of (A.load req st) = storeTokens st
  /\ store_of (A.root req st) = storeTokens st
  /\ store_of (B.install CLIENT_ID APP_URL req st) = storeTokens st
  /\ store_of (B.auth_callback CLIENT_ID CLIENT_SECRET APP_URL fetch req st)
     = storeTokens st
  /\ store_of (B.load req st) = storeTokens st
  /\ store_of (B.uninstall req st) = storeTokens st
  /\ store_of (B.shipping_connection req st) = storeTokens st
  /\ store_of (B.shipping_rates req st) = storeTokens st
  /\ store_of (B.root req st) = storeTokens st.
Proof.
  split; [|split; [|split; [|split; [|split; [|repeat split]]]]];
    try reflexivity.
  - unfold A.install. unfold_monad.
    destruct (negb _ || negb _); [reflexivity|].
    destruct (negb _ || negb _); reflexivity.
  - unfold B.install. unfold_monad.
    destruct (negb _ || negb _); reflexivity.
  - apply B_callback_store.
Qed.

(** ** What is sent to the platform *)

(** X17. The body of the token exchange carries the grant type, the callback
    URL made from the base URL, and the code, scope and context of the
    request as they came; the client identifier and secret are members
    when they are configured.  A member whose value is [undefined] (a
    missing scope, an unset secret) is left out, and the others are still
    there. *)
Theorem token_request_members
    (CLIENT_ID CLIENT_SECRET APP_URL : option string) (req : request) :
  let sent := A.token_request CLIENT_ID CLIENT_SECRET APP_URL req in
  let body := init_body sent in
  url sent = "https://login.bigcommerce.com/oauth2/token"
  /\ init_method sent = "POST"
  /\ prop body "client_id" = JStr <$> CLIENT_ID
  /\ prop body "client_secret" = JStr <$> CLIENT_SECRET
  /\ prop body "redirect_uri" = str (env_string APP_URL +:+ "/api/auth/callback")
  /\ prop body "grant_type" = str "authorization_code"
  /\ prop body "code" = of_query (req_query req !! "code")
  /\ prop body "scope" = of_query (req_query req !! "scope")
  /\ prop body "context" = of_query (req_query req !! "context").
Proof.
  cbv zeta. unfold A.token_request, object_literal. cbn [url init_method init_body].
  destruct CLIENT_ID, CLIENT_SECRET,
    (req_query req !! "code"), (req_query req !! "scope"),
    (req_query req !! "context"); repeat split.
Qed.

(** ** What the callback asks of the network *)

Lemma registerMetadata_ext
    (fetch fetch' : fetch_init -> fetch_outcome) (storeHash : string)
    (accessToken : jsval) (st : state) :
  fetch (A.metadata_request storeHash accessToken)
  = fetch' (A.metadata_request storeHash accessToken) ->
  A.registerMetadata fetch storeHash accessToken st
  = A.registerMetadata fetch' storeHash accessToken st.
Proof. intros E. unfold A.registerMetadata. rewrite E. reflexivity. Qed.

(** X18. The callback of variant B uses the network for the token exchange and
    for nothing else: two networks that answer the exchange alike give the
    same run.  The callback of variant A uses it for the exchange and for
    the metadata request only. *)
Theorem callback_network_use
    (CLIENT_ID CLIENT_SECRET APP_URL : option string)
    (fetch fetch' : fetch_init -> fetch_outcome) (req : request) (st : state) :
  fetch (A.token_request CLIENT_ID CLIENT_SECRET APP_URL req)
  = fetch' (A.token_request CLIENT_ID CLIENT_SECRET APP_URL req) ->
  B.auth_callback CLIENT_ID CLIENT_SECRET APP_URL fetch req st
  = B.auth_callback CLIENT_ID CLIENT_SECRET APP_URL fetch' req st
  /\ ((forall storeHash accessToken,
         fetch (A.metadata_request storeHash accessToken)
         = fetch' (A.metadata_request storeHash accessToken)) ->
      A.auth_callback CLIENT_ID CLIENT_SECRET APP_URL fetch req st
      = A.auth_callback CLIENT_ID CLIENT_SECRET APP_URL fetch' req st).
Proof.
  intros E. split.
  - unfold B.auth_callback. rewrite token_request_same, E. reflexivity.
  - intros Em.
    unfold A.auth_callback, A.storeHash, call_replace, await, await_json, read.
    rewrite E. unfold_monad.
    destruct (negb _ || negb _); [reflexivity|].
    destruct (of_query (req_query req !! "context")) as [[| | | s | |]|];
      try reflexivity.
    destruct (fetch' _) as [r|reason]; [|reflexivity].
    cbn [fst snd]. destruct (res_json r) as [data|]; [|reflexivity].
    cbn [fst snd]. destruct (res_ok r); cbn [negb]; [|reflexivity].
    destruct data; try reflexivity; cbn [fst snd];
      match goal with
      | |- context [A.registerMetadata fetch ?h ?t ?s] =>
          rewrite (registerMetadata_ext fetch fetch' h t s (Em h t))
      end; reflexivity.
Qed.

Lemma callback_network_use_witness :
  B.auth_callback (Some "cid") (Some "s3cret") (Some "https://app.example")
    (network (Resolved granted) (Resolved created))
    (callback_request "stores/abc123") st0
  = B.auth_callback (Some "cid") (Some "s3cret") (Some "https://app.example")
      (network (Resolved granted) (Rejected "ECONNRESET"))
      (callback_request "stores/abc123") st0.
Proof.
  apply (callback_network_use (Some "cid") (Some "s3cret")
           (Some "https://app.example")
           (network (Resolved granted) (Resolved created))
           (network (Resolved granted) (Rejected "ECONNRESET"))
           (callback_request "stores/abc123") st0).
  reflexivity.
Defined.

(** ** Uninstall: the answer *)

(** X19. The uninstall handler of variant A answers 200 [{success: true}]
    unless the identifier is truthy and cannot be written into the console
    line (an object with a member named [toString], or an array holding
    one), in which case it throws; a string, a number, a boolean, a
    missing or falsy identifier always gets the 200.  Variant B always
    answers 200.  In every case, the one that throws included, a second
    run on the same request gives the same outcome and leaves the same
    store as the first. *)
Theorem uninstall_answers_or_throws (req : request) (st : state) :
  let store_hash := prop_opt (req_body req) "store_hash" in
  let once_A := A.uninstall req st in
  let twice_A := A.uninstall req (snd once_A) in
  let once_B := B.uninstall req st in
  let twice_B := B.uninstall req (snd once_B) in
  response_of once_A
    = (if truthy store_hash && negb (printable_val store_hash)
       then Throw TypeError
       else Return (SendJson 200 success))
  /\ response_of twice_A = response_of once_A
  /\ store_of twice_A = store_of once_A
  /\ response_of once_B = Return (SendJson 200 success)
  /\ response_of twice_B = response_of once_B
  /\ store_of twice_B = store_of once_B.
Proof.
  cbv zeta. split; [apply A_uninstall_response|].
  split; [rewrite !A_uninstall_response; reflexivity|].
  split; [|repeat split].
  rewrite (A_uninstall_store req (snd (A.uninstall req st))).
  fold (store_of (A.uninstall req st)). rewrite A_uninstall_store.
  destruct (prop_opt (req_body req) "store_hash") as [[| | | [|c s] | |]|];
    try reflexivity.
  apply delete_delete_eq.
Qed.
